(** * sherpa/resultstable.py: the trial ledger [ResultsTable]

    A shallow embedding of [AbstractResultsTable] and [ResultsTable]
    (src/sherpa/resultstable.py) and the properties of the ledger:
    index allocation, the lifecycle calls [on_start] and [on_finish],
    the selection queries and the write-through to [results.csv].

    Python methods become computations in a state-and-exception monad over
    the interpreter state ([State]): the attributes of [self], the heap of
    caller-owned dict objects, the history files on disk and the content of
    [results.csv].  A raised exception is returned together with the state
    the interpreter is left in, so what a failed call has already mutated is
    visible in the result.

    What is taken from pandas and numpy rather than from the file: a frame
    is its column labels and its rows in frame order; [sort_values] sorts the
    rows by the key with the null keys last; sorting by a missing column
    raises [KeyError]; [to_csv] writes the whole frame and does not fail.  A
    history file either cannot be opened, or opens and is not a pickle, or
    unpickles to a dict from metric keys to lists of readings.

    Where the model is narrower than pandas, the theorems say so:
    - the sort of the model is numpy's insertion sort, which is what numpy
      runs on up to 16 rows; a theorem that depends on the order of rows of
      equal loss carries the bound, every other one speaks of the rows up to
      a permutation;
    - a hyperparameter named like one of the five fixed columns would
      overwrite that cell of its row ([new_dict.update(hp)]); a theorem on
      the fixed cells of a new row assumes [fresh_names];
    - pandas may store an int hyperparameter as a float once a row lacks its
      column; the theorems on what a call adds to the frame compare rows by
      their [entry]: the label, the fixed cells and the hyperparameter
      names.

    The deprecated [ResultsTableOld] and [_load_csv] are not modelled. *)

From Stdlib Require Import List ZArith QArith_base Bool String Lia.
From Stdlib Require Import Sorting.Sorted Sorting.Permutation.
Import ListNotations.
Local Open Scope string_scope.
Local Open Scope list_scope.
Local Open Scope Z_scope.

Set Warnings "-register-all".

(* ================================================================== *)
(** ** Values *)

(** [np.float64].  Finite values are kept as rationals: no claim depends on
    rounding, only on the order, on [np.inf] and on how NaN sorts. *)
Inductive float64 : Type :=
| NaN
| NegInf
| Finite (q : Q)
| PosInf.

Definition np_inf : float64 := PosInf.

(** [a < b] on floats; every comparison with NaN is false. *)
Definition float_lt (a b : float64) : bool :=
  match a, b with
  | NaN, _ | _, NaN => false
  | NegInf, NegInf => false
  | NegInf, _ => true
  | _, NegInf => false
  | Finite p, Finite q => negb (Qle_bool q p)
  | Finite _, PosInf => true
  | PosInf, _ => false
  end.

(** [pandas.isnull] on a float. *)
Definition isnull (a : float64) : bool :=
  match a with NaN => true | _ => false end.

(** A hyperparameter value: a scalar, or a list or dict of values. *)
Inductive hpval : Type :=
| HNone
| HBool (b : bool)
| HInt (z : Z)
| HFloat (f : float64)
| HStr (s : string)
| HList (l : list hpval)
| HDict (d : list (string * hpval)).

Inductive pytype : Type :=
| TNoneType | Tbool | Tint | Tfloat | Tfloat64 | Tstr | Tlist | Tdict.

(** [type(v)] *)
Definition type_of (v : hpval) : pytype :=
  match v with
  | HNone => TNoneType
  | HBool _ => Tbool
  | HInt _ => Tint
  | HFloat _ => Tfloat
  | HStr _ => Tstr
  | HList _ => Tlist
  | HDict _ => Tdict
  end.

(** [type(v) in [list, dict]] *)
Definition is_list_or_dict (v : hpval) : bool :=
  match v with
  | HList _ | HDict _ => true
  | _ => false
  end.

(** A Python dict with string keys, in insertion order. *)
Definition dict (V : Type) : Type := list (string * V).

Fixpoint dict_get {V} (k : string) (d : dict V) : option V :=
  match d with
  | [] => None
  | (k', v) :: d' => if String.eqb k k' then Some v else dict_get k d'
  end.

(** [d[k] = v]: an existing key keeps its place, a new key goes last. *)
Fixpoint dict_set {V} (k : string) (v : V) (d : dict V) : dict V :=
  match d with
  | [] => [(k, v)]
  | (k', v') :: d' =>
      if String.eqb k k' then (k', v) :: d' else (k', v') :: dict_set k v d'
  end.

Definition dict_keys {V} (d : dict V) : list string := map fst d.

(** [k in d] *)
Definition dict_mem {V} (k : string) (d : dict V) : bool :=
  match dict_get k d with Some _ => true | None => false end.

(* ================================================================== *)
(** ** The data frame *)

(** One row of [self.df].  [label] is the row's entry in [df.index]; the
    five fixed columns are fields, the hyperparameter columns are the dict
    [HP].  Hyperparameter names are taken to differ from the five fixed
    column names ([fresh_names] below). *)
Record Row : Type := mkRow {
  label : Z;
  ID : Z;
  Loss : float64;
  Epochs : nat;
  History : option string;
  Pending : bool;
  HP : dict hpval
}.

Definition with_Loss (v : float64) (r : Row) : Row :=
  mkRow (label r) (ID r) v (Epochs r) (History r) (Pending r) (HP r).
Definition with_Epochs (v : nat) (r : Row) : Row :=
  mkRow (label r) (ID r) (Loss r) v (History r) (Pending r) (HP r).
Definition with_History (v : option string) (r : Row) : Row :=
  mkRow (label r) (ID r) (Loss r) (Epochs r) v (Pending r) (HP r).
Definition with_Pending (v : bool) (r : Row) : Row :=
  mkRow (label r) (ID r) (Loss r) (Epochs r) (History r) v (HP r).

(** [pd.DataFrame]: the column labels (as a set, their order is not
    modelled) and the rows in frame order. *)
Record DataFrame : Type := mkDF {
  columns : list string;
  rows : list Row
}.

(** [pd.DataFrame()] *)
Definition empty_frame : DataFrame := mkDF [] [].

(** [df.index] *)
Definition frame_index (d : DataFrame) : list Z := map label (rows d).

(** [index in df.index] *)
Definition in_index (index : Z) (d : DataFrame) : bool :=
  existsb (Z.eqb index) (frame_index d).

(** [col in df.columns] *)
Definition has_column (col : string) (d : DataFrame) : bool :=
  existsb (String.eqb col) (columns d).

(** [df.set_value(index=index, col=..., value=...)] on a label that is in
    the frame: the cell of the row carrying that label is overwritten;
    [upd] is the write to the column. *)
Definition set_value (index : Z) (upd : Row -> Row) (d : DataFrame)
  : DataFrame :=
  mkDF (columns d)
       (map (fun r => if Z.eqb (label r) index then upd r else r) (rows d)).

Fixpoint add_columns (new : list string) (cols : list string) : list string :=
  match new with
  | [] => cols
  | c :: new' =>
      add_columns new'
        (if existsb (String.eqb c) cols then cols else cols ++ [c])
  end.

(** The fixed columns, [self.keys]. *)
Definition keys : list string :=
  ["ID"; "Loss"; "Epochs"; "History"; "Pending"].

(** No key of a hyperparameter dict is the name of a fixed column. *)
Definition fresh_names (d : dict hpval) : Prop :=
  Forall (fun k => ~ In k keys) (dict_keys d).

(** [df.append(pd.DataFrame(new_dict, index=[index]))], for a [new_dict]
    whose hyperparameter names are [fresh_names]: the fixed cells are the
    ones [_set] wrote.  Cells are kept as given (a column that becomes
    float64 because a row lacks it is not modelled). *)
Definition frame_append (new_line : Row) (d : DataFrame) : DataFrame :=
  mkDF (add_columns (keys ++ dict_keys (HP new_line)) (columns d))
       (rows d ++ [new_line]).

(** *** [sort_values(by='Loss')]

    pandas sorts the positions of the non-null keys with numpy's argsort and
    puts the positions of the null keys after them, in frame order
    ([na_position='last']).  numpy's default sort finishes with an insertion
    sort, which is all it runs on an array of up to 16 elements; the model
    is insertion sort on every length (written by recursion on the list: a
    row goes before the first row whose key is not smaller), so rows with
    equal keys keep their frame order.  On more than 16 rows numpy's sort
    may order rows of equal key otherwise: there the model gives the rows
    of the sorted frame up to a permutation of equal keys only. *)
Fixpoint insert_row (x : Row) (l : list Row) : list Row :=
  match l with
  | [] => [x]
  | y :: l' =>
      if float_lt (Loss y) (Loss x) then y :: insert_row x l'
      else x :: y :: l'
  end.

Definition argsort (l : list Row) : list Row :=
  fold_right insert_row [] l.

Definition nargsort (l : list Row) : list Row :=
  argsort (filter (fun r => negb (isnull (Loss r))) l)
  ++ filter (fun r => isnull (Loss r)) l.

Definition sort_values_Loss (d : DataFrame) : DataFrame :=
  mkDF (columns d) (nargsort (rows d)).

(** A cell read out of a frame. *)
Inductive cell : Type :=
| CInt (z : Z)
| CFloat (f : float64)
| CStr (s : string)
| CBool (b : bool)
| CNone
| CNaN
| CVal (v : hpval).

(** [row[col]]; a hyperparameter column the row never had reads NaN. *)
Definition row_get (col : string) (r : Row) : cell :=
  if String.eqb col "ID" then CInt (ID r)
  else if String.eqb col "Loss" then CFloat (Loss r)
  else if String.eqb col "Epochs" then CInt (Z.of_nat (Epochs r))
  else if String.eqb col "History" then
    match History r with Some s => CStr s | None => CNone end
  else if String.eqb col "Pending" then CBool (Pending r)
  else match dict_get col (HP r) with Some v => CVal v | None => CNaN end.

(* ================================================================== *)
(** ** Interpreter state and exceptions *)

(** A history artifact: the unpickled dict, metric key to the list of
    per-epoch readings.  (Its ['hp'] entry is read by [load] only.) *)
Definition history_dict : Type := dict (list float64).

(** Why [pkl.load] fails on a file that opens: the bytes are no pickle
    ([pickle.UnpicklingError]), or they end early ([EOFError], as on an
    empty file). *)
Inductive unpickling : Type :=
| NotAPickle
| RanOut.

(** A file that can be opened. *)
Inductive artifact : Type :=
| Pickled (history : history_dict)
| Unreadable (why : unpickling).

Definition addr : Type := nat.

Record State : Type := mkState {
  (* attributes of self *)
  loss : string;
  loss_summary : list float64 -> float64;
  hist2loss : option (list float64 -> float64);
  dtypes : dict pytype;
  df : DataFrame;
  (* the world *)
  csv : option DataFrame;
  files : string -> option artifact;
  heap : list (dict hpval)
}.

Definition set_hist2loss v (s : State) : State :=
  mkState (loss s) (loss_summary s) v (dtypes s) (df s)
          (csv s) (files s) (heap s).
Definition set_dtypes v (s : State) : State :=
  mkState (loss s) (loss_summary s) (hist2loss s) v (df s)
          (csv s) (files s) (heap s).
Definition set_df v (s : State) : State :=
  mkState (loss s) (loss_summary s) (hist2loss s) (dtypes s) v
          (csv s) (files s) (heap s).
Definition set_csv v (s : State) : State :=
  mkState (loss s) (loss_summary s) (hist2loss s) (dtypes s) (df s)
          v (files s) (heap s).
Definition set_heap v (s : State) : State :=
  mkState (loss s) (loss_summary s) (hist2loss s) (dtypes s) (df s)
          (csv s) (files s) v.

(** What an exception was raised for. *)
Inductive reason : Type :=
| IndexNotIn (index : Z)                 (* 'Index {} not in {}' *)
| HistoryFileNotFound (path : string)    (* 'History file not found at {}' *)
| KeyNotIn (key : string)                (* 'Key {} not in {}' *)
| NoHyperparameters      (* 'Trying to add row but no Hyperparameters' *)
| TopK (k found : nat)   (* 'Tried to get top {} results but only found {}' *)
| LengthIs (n : nat)     (* the message of [assert len(data.index) >= k] *)
| NoAttribute (name : string)
| OutOfBounds
| NoSuchFile (path : string)
| NoKey (key : string).

Inductive exn : Type :=
| AssertionError (why : reason)
| ValueError (why : reason)
| OSError (why : reason)
| KeyError (why : reason)
| IndexError (why : reason)
| AttributeError (why : reason)
| UnpicklingError
| EOFError
| NotImplementedError.

(** What [pkl.load] raises; neither is an [OSError]. *)
Definition unpickling_error (why : unpickling) : exn :=
  match why with
  | NotAPickle => UnpicklingError
  | RanOut => EOFError
  end.

Definition M (A : Type) : Type := State -> (exn + A) * State.

Definition ret {A} (a : A) : M A := fun s => (inr a, s).

Definition bind {A B} (m : M A) (k : A -> M B) : M B :=
  fun s =>
    match m s with
    | (inr a, s') => k a s'
    | (inl e, s') => (inl e, s')
    end.

Definition raise {A} (e : exn) : M A := fun s => (inl e, s).

Definition gets {A} (f : State -> A) : M A := fun s => (inr (f s), s).

Definition modify (f : State -> State) : M unit := fun s => (inr tt, f s).

(** [assert b, why] *)
Definition assert_ (b : bool) (why : reason) : M unit :=
  if b then ret tt else raise (AssertionError why).

Definition when (b : bool) (m : M unit) : M unit :=
  if b then m else ret tt.

Declare Scope py_scope.
Delimit Scope py_scope with py.
Notation "x <- m ;; k" := (bind m (fun x => k))
  (at level 61, m at next level, right associativity) : py_scope.
Notation "m ;; k" := (bind m (fun _ => k))
  (at level 61, right associativity) : py_scope.
Local Open Scope py_scope.

(** [for x in xs: body(x)] *)
Fixpoint for_each {A} (xs : list A) (body : A -> M unit) : M unit :=
  match xs with
  | [] => ret tt
  | x :: xs' => body x ;; for_each xs' body
  end.

(* ================================================================== *)
(** ** The methods *)

Section Methods.

(** [str(v)], the builtin, on a list or dict value. *)
Variable py_str : hpval -> string.

(** The dict object at an address (an address never handed out reads as
    the empty dict). *)
Definition deref (a : addr) (s : State) : dict hpval := nth a (heap s) [].

Fixpoint update_nth {A} (n : nat) (x : A) (l : list A) : list A :=
  match l, n with
  | [], _ => []
  | _ :: l', O => x :: l'
  | y :: l', S n' => y :: update_nth n' x l'
  end.

(** [copy.deepcopy(hp)]: a new object with the same content. *)
Definition deepcopy (a : addr) : M addr :=
  fun s => (inr (List.length (heap s)), set_heap (heap s ++ [deref a s]) s).

(** [hp[key]] *)
Definition getitem (a : addr) (key : string) : M hpval :=
  fun s =>
    match dict_get key (deref a s) with
    | Some v => (inr v, s)
    | None => (inl (KeyError (NoKey key)), s)
    end.

(** [hp[key] = v], in place. *)
Definition setitem (a : addr) (key : string) (v : hpval) : M unit :=
  modify (fun s =>
    set_heap (update_nth a (dict_set key v (deref a s)) (heap s)) s).

(** [AbstractResultsTable.__init__]: [loss_summary or (lambda l: l[-1])]. *)
Definition default_summary (loss_list : list float64) : float64 :=
  last loss_list NaN.

(** [ResultsTable._save] *)
Definition _save : M unit :=
  has_loss <- gets (fun s => has_column "Loss" (df s)) ;;
  when has_loss (modify (fun s => set_df (sort_values_Loss (df s)) s)) ;;
  modify (fun s => set_csv (Some (df s)) s).

(** [ResultsTable._create_table] *)
Definition _create_table : M unit :=
  modify (set_df empty_frame) ;;
  _save.

(** [ResultsTable.__init__] with [load_results=None], run in a world with
    the given history files and heap and a previous [results.csv]. *)
Definition __init__ (loss_key : string)
    (summary : option (list float64 -> float64))
    (old_csv : option DataFrame)
    (fs : string -> option artifact) (h : list (dict hpval)) : State :=
  snd (_create_table
         (mkState loss_key
            (match summary with Some f => f | None => default_summary end)
            None
            [("ID", Tint); ("Loss", Tfloat64); ("Epochs", Tint);
             ("History", Tstr); ("Pending", Tbool)]
            empty_frame old_csv fs h)).

(** [ResultsTable.get_indices()] (the call without [hp]). *)
Definition get_indices : M (list Z) :=
  gets (fun s => frame_index (df s)).

(** The body of the loop [for key in hp] of [_set], on the copy. *)
Definition flatten_key (hp : addr) (key : string) : M unit :=
  v <- getitem hp key ;;
  when (is_list_or_dict v) (setitem hp key (HStr (py_str v))) ;;
  types <- gets dtypes ;;
  when (negb (dict_mem key types))
       (v' <- getitem hp key ;;
        modify (fun s => set_dtypes (dict_set key (type_of v') (dtypes s)) s)).

(** [ResultsTable._set]; the caller passes every argument, the defaults
    being [loss=np.inf, epochs=0, hp=None, historyfile=None,
    pending=False].  In the branch that adds a row, [new_dict.update(hp)]
    is modelled for an [hp] with [fresh_names], where it leaves the five
    fixed cells as they were given; an [hp] with a key of that name would
    overwrite the cell, which a [Row] cannot show. *)
Definition _set (index : Z) (loss : float64) (epochs : nat)
    (hp : option addr) (historyfile : option string) (pending : bool)
  : M unit :=
  present <- gets (fun s => in_index index (df s)) ;;
  (if present then
     modify (fun s => set_df (set_value index (with_Loss loss) (df s)) s) ;;
     modify (fun s => set_df (set_value index (with_Epochs epochs) (df s)) s) ;;
     modify (fun s =>
       set_df (set_value index (with_History historyfile) (df s)) s) ;;
     modify (fun s => set_df (set_value index (with_Pending pending) (df s)) s)
   else
     match hp with
     | None => assert_ false NoHyperparameters
     | Some a =>
         nonempty <- gets (fun s =>
           match deref a s with [] => false | _ => true end) ;;
         assert_ nonempty NoHyperparameters ;;
         hp' <- deepcopy a ;;
         ks <- gets (fun s => dict_keys (deref hp' s)) ;;
         for_each ks (flatten_key hp') ;;
         new_dict <- gets (deref hp') ;;
         modify (fun s =>
           set_df (frame_append
                     (mkRow index index loss epochs historyfile pending
                            new_dict)
                     (df s)) s)
     end) ;;
  _save.

(** [AbstractResultsTable.on_start] *)
Definition on_start (hp : addr) : M Z :=
  indices <- get_indices ;;
  let index :=
    match indices with
    | [] => 0
    | i :: rest => fold_right Z.max i rest + 1
    end in
  _set index np_inf 0 (Some hp) None true ;;
  ret index.

(** [open(historyfile, 'rb')] and [pkl.load(f)]: [open] raises [OSError]
    on a file that cannot be opened, [pkl.load] raises its own exception on
    a file that is not a pickle. *)
Definition open_load (historyfile : string) : M history_dict :=
  fun s =>
    match files s historyfile with
    | Some (Pickled h) => (inr h, s)
    | Some (Unreadable why) => (inl (unpickling_error why), s)
    | None => (inl (OSError (NoSuchFile historyfile)), s)
    end.

(** [try: m except OSError: handler] *)
Definition except_OSError {A} (m : M A) (handler : M A) : M A :=
  fun s =>
    match m s with
    | (inl (OSError _), s') => handler s'
    | r => r
    end.

(** [AbstractResultsTable.on_finish] *)
Definition on_finish (index : Z) (historyfile : string) : M unit :=
  indices <- get_indices ;;
  assert_ (existsb (Z.eqb index) indices) (IndexNotIn index) ;;
  history <- except_OSError (open_load historyfile)
               (raise (ValueError (HistoryFileNotFound historyfile))) ;;
  key <- gets loss ;;
  assert_ (dict_mem key history) (KeyNotIn key) ;;
  match dict_get key history with
  | None => raise (KeyError (NoKey key))
  | Some readings =>
      let epochs_seen := List.length readings in
      summary <- gets loss_summary ;;
      let lowest_loss :=
        if (0 <? epochs_seen)%nat then summary readings else np_inf in
      _set index lowest_loss epochs_seen None (Some historyfile) false
  end.

(** [get_pending]: abstract in [AbstractResultsTable], not overridden by
    [ResultsTable]. *)
Definition get_pending : M (list Z) :=
  raise NotImplementedError.

(** [ResultsTable.get_k_lowest]; sorting by a column the frame does not
    have is a [KeyError]. *)
Definition get_k_lowest (k : nat) (ignore_pending : bool) : M DataFrame :=
  d <- gets df ;;
  if has_column "Loss" d then
    let data := sort_values_Loss d in
    let data :=
      if ignore_pending
      then mkDF (columns data) (filter (fun r => negb (Pending r)) (rows data))
      else data in
    if (List.length (rows data) <? k)%nat
    then raise (ValueError (TopK k (List.length (rows data))))
    else
      assert_ (k <=? List.length (rows data))%nat
              (LengthIs (List.length (rows data))) ;;
      ret (mkDF (columns data) (firstn k (rows data)))
  else raise (KeyError (NoKey "Loss")).

(** [ResultsTable.get_best] *)
Definition get_best (ignore_pending : bool) : M (dict cell) :=
  data <- get_k_lowest 1 ignore_pending ;;
  match rows data with
  | r :: _ => ret (map (fun k => (k, row_get k r)) keys)
  | [] => raise (IndexError OutOfBounds)
  end.

(** [df.iloc[i]]: the row at position [i], counted from the end when [i]
    is negative. *)
Definition iloc (i : Z) (d : DataFrame) : M Row :=
  let n := Z.of_nat (List.length (rows d)) in
  let p := if i <? 0 then n + i else i in
  if (0 <=? p) && (p <? n) then
    match nth_error (rows d) (Z.to_nat p) with
    | Some r => ret r
    | None => raise (IndexError OutOfBounds)
    end
  else raise (IndexError OutOfBounds).

(** [ResultsTable.update_hist2loss]; [self.update] is looked up on an
    object that has no such attribute. *)
Definition update_hist2loss (f : list float64 -> float64) : M unit :=
  modify (set_hist2loss (Some f)) ;;
  labels <- gets (fun s => frame_index (df s)) ;;
  for_each labels (fun index =>
    d <- gets df ;;
    r <- iloc index d ;;
    let historyfile := History r in
    raise (AttributeError (NoAttribute "update"))).

(** *** A driver

    One call of the lifecycle API, and a caller that makes a list of calls
    in order, catching what a call raises and going on with the ledger as
    that call left it. *)
Inductive call : Type :=
| Start (hp : addr)
| Finish (index : Z) (historyfile : string).

Definition perform (c : call) : M (option Z) :=
  match c with
  | Start hp => index <- on_start hp ;; ret (Some index)
  | Finish index historyfile => on_finish index historyfile ;; ret None
  end.

Fixpoint run (cs : list call) (s : State)
  : list (exn + option Z) * State :=
  match cs with
  | [] => ([], s)
  | c :: cs' =>
      let (r, s') := perform c s in
      let (rs, s'') := run cs' s' in
      (r :: rs, s'')
  end.

End Methods.


(* ================================================================== *)
(** ** The order of [sort_values] *)

(** [a] may stand before [b] in a frame sorted by ascending loss with the
    null keys last. *)
Definition loss_leb (a b : float64) : bool :=
  isnull b || (negb (isnull a) && negb (float_lt b a)).

Definition row_le (r1 r2 : Row) : Prop :=
  loss_leb (Loss r1) (Loss r2) = true.

(* ================================================================== *)
(** ** What the methods compute *)

(** The index [on_start] allots: [max(indices) + 1], or 0. *)
Definition next_index (indices : list Z) : Z :=
  match indices with
  | [] => 0
  | i :: rest => fold_right Z.max i rest + 1
  end.

(** The state [_save] leaves. *)
Definition saved (s : State) : State :=
  let d := if has_column "Loss" (df s) then sort_values_Loss (df s)
           else df s in
  mkState (loss s) (loss_summary s) (hist2loss s) (dtypes s) d (Some d)
          (files s) (heap s).

(** The four [set_value] calls of [_set]. *)
Definition updated (index : Z) (loss : float64) (epochs : nat)
    (historyfile : option string) (pending : bool) (d : DataFrame)
  : DataFrame :=
  set_value index (with_Pending pending)
    (set_value index (with_History historyfile)
       (set_value index (with_Epochs epochs)
          (set_value index (with_Loss loss) d))).

(** The truth value of the [hp] argument: [None] and [{}] are false. *)
Definition hp_truth (hp : option addr) (s : State) : bool :=
  match hp with
  | None => false
  | Some a => match deref a s with [] => false | _ => true end
  end.

(** A frame that has rows has the column ['Loss'] (every frame the ledger
    builds does: the first [append] brings the fixed columns). *)
Definition frame_ok (d : DataFrame) : Prop :=
  rows d <> [] -> has_column "Loss" d = true.

(** Every way [_set] ends: what it returns or raises, and the state it
    leaves. *)
Inductive set_outcome (index : Z) (l : float64) (e : nat)
    (hp : option addr) (h : option string) (p : bool) (s : State)
  : (exn + unit) * State -> Prop :=
| set_updates :
    in_index index (df s) = true ->
    set_outcome index l e hp h p s
      (inr tt, saved (set_df (updated index l e h p (df s)) s))
| set_refuses :
    in_index index (df s) = false -> hp_truth hp s = false ->
    set_outcome index l e hp h p s (inl (AssertionError NoHyperparameters), s)
| set_inserts a obj' dt' :
    in_index index (df s) = false -> hp = Some a ->
    hp_truth hp s = true ->
    dict_keys obj' = dict_keys (deref a s) ->
    set_outcome index l e hp h p s
      (inr tt,
       saved (mkState (loss s) (loss_summary s) (hist2loss s) dt'
                (frame_append (mkRow index index l e h p obj') (df s))
                (csv s) (files s) (heap s ++ [obj']))).

(** Two float keys that [sort_values] does not tell apart. *)
Definition same_loss (a b : float64) : bool :=
  if isnull a then isnull b
  else negb (isnull b) && negb (float_lt a b) && negb (float_lt b a).

(** The rows [get_k_lowest] chooses from. *)
Definition kept (ignore_pending : bool) (l : list Row) : list Row :=
  if ignore_pending then filter (fun r => negb (Pending r)) l else l.

(** The csv file holds the frame as it is in memory, and the rows are in
    ascending order of [Loss] (null last). *)
Definition written_through (s : State) : Prop :=
  csv s = Some (df s) /\ StronglySorted row_le (rows (df s)).

(* ================================================================== *)
(** ** A small world for the examples *)

(** [str] as far as the examples need it: their one list is [[3, 4]]. *)
Definition str_example (v : hpval) : string := "[3, 4]".

(** Seven history files: readings 0.2, 0.5; readings 0.7, 0.2; one reading
    0.5; no reading; one without the key ['loss']; one that is not a pickle
    and an empty one. *)
Definition example_files (path : string) : option artifact :=
  if String.eqb path "0_history.pkl"
  then Some (Pickled [("loss", [Finite (1 # 5); Finite (1 # 2)])])
  else if String.eqb path "1_history.pkl"
  then Some (Pickled [("loss", [Finite (7 # 10); Finite (1 # 5)])])
  else if String.eqb path "2_history.pkl"
  then Some (Pickled [("loss", [Finite (1 # 2)])])
  else if String.eqb path "3_history.pkl"
  then Some (Pickled [("loss", [])])
  else if String.eqb path "4_history.pkl"
  then Some (Pickled [("acc", [Finite (1 # 2)])])
  else if String.eqb path "5_history.pkl"
  then Some (Unreadable NotAPickle)
  else if String.eqb path "6_history.pkl"
  then Some (Unreadable RanOut)
  else None.

(** The caller's dicts: [{'lr': 0.1, 'layers': [3, 4]}] at address 0 and
    [{}] at address 1. *)
Definition example_heap : list (dict hpval) :=
  [ [("lr", HFloat (Finite (1 # 10))); ("layers", HList [HInt 3; HInt 4])];
    [] ].

(** [ResultsTable(loss='loss')] *)
Definition new_ledger : State :=
  __init__ "loss" None None example_files example_heap.

(** Trial 0 started. *)
Definition one_pending : State :=
  snd (run str_example [Start 0%nat] new_ledger).

(** Trials 0 and 1 started. *)
Definition two_pending : State :=
  snd (run str_example [Start 0%nat; Start 0%nat] new_ledger).

(** Trial 0 finished with loss 0.5. *)
Definition one_finished : State :=
  snd (run str_example [Start 0%nat; Finish 0 "0_history.pkl"] new_ledger).

(** Trial 0 finished with loss 0.5, then trial 1 with loss 0.2. *)
Definition ranked : State :=
  snd (run str_example
         [Start 0%nat; Start 0%nat;
          Finish 0 "0_history.pkl"; Finish 1 "1_history.pkl"] new_ledger).

(** Trial 1 finished with loss 0.5, then trial 0 with loss 0.5. *)
Definition tied : State :=
  snd (run str_example
         [Start 0%nat; Start 0%nat;
          Finish 1 "0_history.pkl"; Finish 0 "2_history.pkl"] new_ledger).

(** [lambda loss_list: loss_list[0]] *)
Definition first_reading (loss_list : list float64) : float64 :=
  hd NaN loss_list.

(* ================================================================== *)
(** ** The import of history files and the filter of [get_indices] *)

Section Loading.

Variable py_str : hpval -> string.

(** The ['hp'] entry of the pickled dict in the history file at a path
    ([None] when the dict has no such key); the metric entries of the same
    file are in [files]. *)
Variable hp_entry : string -> option (dict hpval).

(** What [self.df[self.df['HP'] == hp].index] gives on a frame that has a
    column ['HP']: how pandas compares a column with a dict is left open. *)
Variable filter_HP : addr -> M (list Z).

(** An object that unpickling builds is a new object. *)
Definition alloc (d : dict hpval) : M addr :=
  fun s => (inr (List.length (heap s)), set_heap (heap s ++ [d]) s).

(** [ResultsTable.load]; here the [OSError] of [open] is not caught, and
    neither is what [pkl.load] raises. *)
Definition load (historyfile : string) : M unit :=
  history <- open_load historyfile ;;
  match hp_entry historyfile with
  | None => raise (KeyError (NoKey "hp"))
  | Some d =>
      hp <- alloc d ;;
      index <- on_start py_str hp ;;
      on_finish py_str index historyfile
  end.

(** The loop of [ResultsTable.__init__] over the files [hfiles] that
    [glob] found under [load_results]. *)
Definition load_results (hfiles : list string) : M unit :=
  for_each hfiles load.

(** [ResultsTable.get_indices(hp)], with and without the filter; [{}] is
    not [None].  Taking a column that the frame does not have is a
    [KeyError]. *)
Definition get_indices_hp (hp : option addr) : M (list Z) :=
  match hp with
  | None => get_indices
  | Some a =>
      d <- gets df ;;
      if has_column "HP" d then filter_HP a
      else raise (KeyError (NoKey "HP"))
  end.

(** *** What [_set] stores for a new row *)

(** The value the loop of [_set] leaves under a key. *)
Definition flatten_value (v : hpval) : hpval :=
  if is_list_or_dict v then HStr (py_str v) else v.

(** The copy of [hp] after the loop. *)
Definition flattened (d : dict hpval) : dict hpval :=
  map (fun kv => (fst kv, flatten_value (snd kv))) d.

(** [self.dtypes] after the loop over the converted copy [d]: a key that
    has a type keeps it. *)
Fixpoint registered (d : dict hpval) (types : dict pytype) : dict pytype :=
  match d with
  | [] => types
  | (k, v) :: d' =>
      registered d'
        (if dict_mem k types then types else dict_set k (type_of v) types)
  end.

(** The state after an [on_start] that returns. *)
Definition started (hp : addr) (s : State) : State :=
  saved (mkState (loss s) (loss_summary s) (hist2loss s)
           (registered (flattened (deref hp s)) (dtypes s))
           (frame_append
              (mkRow (next_index (frame_index (df s)))
                     (next_index (frame_index (df s)))
                     np_inf 0 None true (flattened (deref hp s)))
              (df s))
           (csv s) (files s) (heap s ++ [flattened (deref hp s)])).

End Loading.

(** The loss [on_finish] stores for a list of readings. *)
Definition summarized (summary : list float64 -> float64)
    (readings : list float64) : float64 :=
  if (0 <? List.length readings)%nat then summary readings else np_inf.

(** The state after an [on_finish] that returns. *)
Definition finished (index : Z) (historyfile : string)
    (readings : list float64) (s : State) : State :=
  saved (set_df (updated index (summarized (loss_summary s) readings)
                   (List.length readings) (Some historyfile) false (df s))
           s).

(** Every dict object has each key once. *)
Definition heap_ok (s : State) : Prop :=
  Forall (fun d => NoDup (dict_keys d)) (heap s).

(** What holds of every row of a ledger: the [ID] cell is the row's
    label; a pending row has the values [on_start] gave it; a row that is
    not pending has a history file. *)
Definition row_ok (r : Row) : Prop :=
  ID r = label r /\
  (Pending r = true ->
   Loss r = np_inf /\ Epochs r = 0%nat /\ History r = None) /\
  (Pending r = false -> History r <> None).

(** What a row shows whatever type pandas gives a hyperparameter column:
    its label, its five fixed cells and the names of its hyperparameters. *)
Definition entry (r : Row)
  : Z * Z * float64 * nat * option string * bool * list string :=
  (label r, ID r, Loss r, Epochs r, History r, Pending r, dict_keys (HP r)).

(** No hyperparameter cell of the row holds a list or a dict. *)
Definition flat_row (r : Row) : Prop :=
  Forall (fun kv => is_list_or_dict (snd kv) = false) (HP r).

(** The columns and the registered types of [s] are still there in [s']. *)
Definition schema_le (s s' : State) : Prop :=
  (forall c, has_column c (df s) = true -> has_column c (df s') = true) /\
  (forall k t, dict_get k (dtypes s) = Some t ->
               dict_get k (dtypes s') = Some t).

(** Every column of the frame has a registered type. *)
Definition schema_ok (s : State) : Prop :=
  forall c, has_column c (df s) = true -> dict_mem c (dtypes s) = true.

(** One state change of the ledger's world: a lifecycle call that returns,
    or a dict that unpickling builds ([fits] is what is known of such a
    dict). *)
Inductive ledger_step (py_str : hpval -> string)
    (fits : dict hpval -> Prop) (s : State) : State -> Prop :=
| step_start hp :
    hp_truth (Some hp) s = true ->
    ledger_step py_str fits s (started py_str hp s)
| step_finish index historyfile history readings :
    in_index index (df s) = true ->
    files s historyfile = Some (Pickled history) ->
    dict_get (loss s) history = Some readings ->
    ledger_step py_str fits s (finished index historyfile readings s)
| step_alloc d :
    fits d ->
    ledger_step py_str fits s (set_heap (heap s ++ [d]) s).

Inductive ledger_steps (py_str : hpval -> string)
    (fits : dict hpval -> Prop) (s : State) : State -> Prop :=
| steps_none : ledger_steps py_str fits s s
| steps_more s1 s2 :
    ledger_steps py_str fits s s1 -> ledger_step py_str fits s1 s2 ->
    ledger_steps py_str fits s s2.

(** *** A caller of the whole interface *)

Section Session.

Variable py_str : hpval -> string.
Variable hp_entry : string -> option (dict hpval).

(** A call that changes the ledger. *)
Inductive request : Type :=
| OnStart (hp : addr)
| OnFinish (index : Z) (historyfile : string)
| Load (historyfile : string)
| LoadResults (hfiles : list string).

Definition serve (r : request) : M unit :=
  match r with
  | OnStart hp => on_start py_str hp ;; ret tt
  | OnFinish index historyfile => on_finish py_str index historyfile
  | Load historyfile => load py_str hp_entry historyfile
  | LoadResults hfiles => load_results py_str hp_entry hfiles
  end.

(** The state after a list of calls, the caller catching what a call
    raises and going on with the state that call left. *)
Fixpoint session (rs : list request) (s : State) : State :=
  match rs with
  | [] => s
  | r :: rs' => session rs' (snd (serve r s))
  end.

End Session.

(** *** The example world, for the import *)

(** The ['hp'] entries of the example history files; ['2_history.pkl'] has
    an empty one and ['3_history.pkl'] has none. *)
Definition example_hp_entry (path : string) : option (dict hpval) :=
  if String.eqb path "0_history.pkl"
  then Some [("lr", HFloat (Finite (1 # 10)));
             ("layers", HList [HInt 3; HInt 4])]
  else if String.eqb path "1_history.pkl"
  then Some [("lr", HFloat (Finite (1 # 5))); ("momentum", HInt 1)]
  else if String.eqb path "2_history.pkl"
  then Some []
  else if String.eqb path "4_history.pkl"
  then Some [("lr", HFloat (Finite (1 # 2)))]
  else None.

(** Some answer of the filter on a frame with a column ['HP']. *)
Definition example_filter (a : addr) : M (list Z) := ret [].

(** Calls on a new ledger: two of them raise and leave the ledger as it
    was, and the import of ['4_history.pkl'] raises after its [on_start]. *)
Definition example_requests : list request :=
  [OnStart 0%nat; Load "0_history.pkl"; OnFinish 0 "1_history.pkl";
   OnStart 1%nat; Load "4_history.pkl"; Load "nowhere.pkl";
   LoadResults ["1_history.pkl"; "0_history.pkl"]].

Definition example_ledger : State :=
  session str_example example_hp_entry example_requests new_ledger.

(* ================================================================== *)
(** ** Properties of the sort *)

Lemma float_lt_asym a b : float_lt a b = true -> float_lt b a = false.
Proof.
  destruct a as [| |p|], b as [| |q|]; simpl; try congruence.
  intros H. apply negb_true_iff in H. apply negb_false_iff.
  apply Qle_bool_iff. apply Qlt_le_weak, Qnot_le_lt.
  intros Hle. apply Qle_bool_iff in Hle. congruence.
Qed.

Lemma float_ge_trans a b c :
  isnull a = false -> isnull b = false -> isnull c = false ->
  float_lt b a = false -> float_lt c b = false -> float_lt c a = false.
Proof.
  destruct a as [| |p|], b as [| |q|], c as [| |r|]; simpl;
    try congruence.
  intros _ _ _ H1 H2.
  apply negb_false_iff in H1, H2. apply negb_false_iff.
  apply Qle_bool_iff in H1, H2. apply Qle_bool_iff.
  eapply Qle_trans; eassumption.
Qed.

Lemma loss_leb_refl a : loss_leb a a = true.
Proof.
  destruct a as [| |p|]; simpl; try reflexivity.
  unfold loss_leb; simpl. apply negb_true_iff, negb_false_iff.
  apply Qle_bool_iff, Qle_refl.
Qed.

Lemma loss_leb_trans a b c :
  loss_leb a b = true -> loss_leb b c = true -> loss_leb a c = true.
Proof.
  unfold loss_leb. intros H1 H2.
  destruct (isnull c) eqn:Ec; [reflexivity|]. simpl in *.
  apply andb_true_iff in H2. destruct H2 as [Hb H2].
  apply negb_true_iff in Hb, H2. rewrite Hb in H1. simpl in H1.
  apply andb_true_iff in H1. destruct H1 as [Ha H1].
  apply negb_true_iff in Ha, H1. rewrite Ha. simpl.
  apply negb_true_iff. eapply float_ge_trans with (b := b); eassumption.
Qed.

Lemma row_le_trans r1 r2 r3 : row_le r1 r2 -> row_le r2 r3 -> row_le r1 r3.
Proof. unfold row_le. apply loss_leb_trans. Qed.

Lemma insert_row_perm x l : Permutation (insert_row x l) (x :: l).
Proof.
  induction l as [|y l IH]; simpl; [reflexivity|].
  destruct (float_lt (Loss y) (Loss x)); [|reflexivity].
  rewrite IH. apply perm_swap.
Qed.

Lemma argsort_perm l : Permutation (argsort l) l.
Proof.
  induction l as [|x l IH]; simpl; [reflexivity|].
  rewrite insert_row_perm. now constructor.
Qed.

Lemma filter_split_perm {A} (f : A -> bool) l :
  Permutation (filter (fun x => negb (f x)) l ++ filter f l) l.
Proof.
  induction l as [|x l IH]; simpl; [reflexivity|].
  destruct (f x); simpl.
  - rewrite <- Permutation_middle. now constructor.
  - now constructor.
Qed.

Lemma nargsort_perm l : Permutation (nargsort l) l.
Proof.
  unfold nargsort. rewrite argsort_perm. apply filter_split_perm.
Qed.

Lemma insert_row_sorted x l :
  isnull (Loss x) = false ->
  Forall (fun r => isnull (Loss r) = false) l ->
  StronglySorted row_le l -> StronglySorted row_le (insert_row x l).
Proof.
  intros Hx Hl Hs. induction Hs as [|y l Hs IH Hy]; simpl.
  - repeat constructor.
  - inversion Hl as [|? ? Hy0 Hl']; subst.
    destruct (float_lt (Loss y) (Loss x)) eqn:E.
    + constructor; [auto|].
      eapply Permutation_Forall; [symmetry; apply insert_row_perm|].
      constructor; [|assumption].
      unfold row_le, loss_leb. rewrite Hx, Hy0. simpl.
      apply negb_true_iff. now apply float_lt_asym.
    + assert (Hxy : row_le x y).
      { unfold row_le, loss_leb. rewrite Hy0, Hx, E. reflexivity. }
      constructor; [now constructor|].
      constructor; [assumption|].
      eapply Forall_impl; [|exact Hy].
      intros z Hz. eapply row_le_trans; eassumption.
Qed.

Lemma argsort_sorted l :
  Forall (fun r => isnull (Loss r) = false) l ->
  StronglySorted row_le (argsort l).
Proof.
  induction 1 as [|x l Hx Hl IH]; simpl; [constructor|].
  apply insert_row_sorted; auto.
  eapply Permutation_Forall; [symmetry; apply argsort_perm|assumption].
Qed.

Lemma StronglySorted_app {A} (R : A -> A -> Prop) l1 l2 :
  StronglySorted R l1 -> StronglySorted R l2 ->
  Forall (fun x => Forall (R x) l2) l1 ->
  StronglySorted R (l1 ++ l2).
Proof.
  induction 1 as [|x l1 Hs IH Hx]; simpl; intros H2 Hc; [assumption|].
  inversion Hc; subst. constructor; [auto|].
  apply Forall_app. split; assumption.
Qed.

Lemma null_rows_sorted l :
  Forall (fun r => isnull (Loss r) = true) l -> StronglySorted row_le l.
Proof.
  induction 1 as [|x l Hx Hl IH]; constructor; [assumption|].
  eapply Forall_impl; [|exact Hl].
  intros r Hr. unfold row_le, loss_leb. now rewrite Hr.
Qed.

(** [sort_values] yields the rows in ascending order of loss, null last. *)
Lemma nargsort_sorted l : StronglySorted row_le (nargsort l).
Proof.
  unfold nargsort.
  assert (Hnull : Forall (fun r => isnull (Loss r) = true)
                         (filter (fun r => isnull (Loss r)) l)).
  { apply Forall_forall. intros r Hr. now apply filter_In in Hr. }
  apply StronglySorted_app.
  - apply argsort_sorted. apply Forall_forall. intros r Hr.
    apply filter_In in Hr. now apply negb_true_iff.
  - now apply null_rows_sorted.
  - apply Forall_forall. intros r _.
    eapply Forall_impl; [|exact Hnull].
    intros r' Hr'. unfold row_le, loss_leb. now rewrite Hr'.
Qed.

(** *** Rows with equal keys keep their frame order *)

Lemma same_loss_not_lt c a b :
  same_loss c a = true -> same_loss c b = true -> float_lt b a = false.
Proof.
  unfold same_loss.
  destruct c as [| |r|], a as [| |p|], b as [| |q|]; simpl;
    try congruence.
  rewrite !negb_involutive, !andb_true_iff.
  intros [Hrp Hpr] [Hrq Hqr].
  apply negb_false_iff. apply Qle_bool_iff.
  apply Qle_bool_iff in Hrp, Hqr. eapply Qle_trans; eassumption.
Qed.

Lemma same_loss_null c a :
  same_loss c a = true -> isnull a = isnull c.
Proof.
  unfold same_loss. destruct c, a; simpl; congruence.
Qed.

Lemma insert_row_filter c x l :
  filter (fun r => same_loss c (Loss r)) (insert_row x l)
  = filter (fun r => same_loss c (Loss r)) (x :: l).
Proof.
  induction l as [|y l IH]; [reflexivity|].
  simpl insert_row. destruct (float_lt (Loss y) (Loss x)) eqn:E;
    [|reflexivity].
  simpl in *. rewrite IH.
  destruct (same_loss c (Loss x)) eqn:Ex; [|reflexivity].
  destruct (same_loss c (Loss y)) eqn:Ey; [|reflexivity].
  rewrite (same_loss_not_lt c _ _ Ex Ey) in E. discriminate.
Qed.

Lemma argsort_filter c l :
  filter (fun r => same_loss c (Loss r)) (argsort l)
  = filter (fun r => same_loss c (Loss r)) l.
Proof.
  induction l as [|x l IH]; [reflexivity|].
  simpl argsort. rewrite insert_row_filter. simpl. now rewrite IH.
Qed.

Lemma filter_comm {A} (f g : A -> bool) l :
  filter f (filter g l) = filter g (filter f l).
Proof.
  induction l as [|x l IH]; [reflexivity|]. simpl.
  destruct (f x) eqn:Ef, (g x) eqn:Eg; simpl; rewrite ?Ef, ?Eg, IH;
    reflexivity.
Qed.

Lemma filter_none {A} (f : A -> bool) l :
  Forall (fun x => f x = false) l -> filter f l = [].
Proof.
  induction 1 as [|x l Hx Hl IH]; simpl; [reflexivity|]. now rewrite Hx.
Qed.

Lemma filter_narrow {A} (f g : A -> bool) l :
  (forall x, f x = true -> g x = true) ->
  filter f (filter g l) = filter f l.
Proof.
  intros H. induction l as [|x l IH]; [reflexivity|]. simpl.
  destruct (g x) eqn:Eg; simpl.
  - now rewrite IH.
  - destruct (f x) eqn:Ef; [|assumption].
    rewrite (H x Ef) in Eg. discriminate.
Qed.

(** The rows of one key come out of [sort_values] in the order they have
    in the frame. *)
Lemma nargsort_stable c l :
  filter (fun r => same_loss c (Loss r)) (nargsort l)
  = filter (fun r => same_loss c (Loss r)) l.
Proof.
  unfold nargsort. rewrite filter_app, argsort_filter.
  destruct (isnull c) eqn:Ec.
  - rewrite (filter_none _ (filter (fun r => negb (isnull (Loss r))) l)).
    + simpl. apply filter_narrow. intros r Hr.
      apply same_loss_null in Hr. congruence.
    + apply Forall_forall. intros r Hr. apply filter_In in Hr.
      destruct Hr as [_ Hr]. apply negb_true_iff in Hr.
      destruct (same_loss c (Loss r)) eqn:E; [|reflexivity].
      apply same_loss_null in E. congruence.
  - rewrite (filter_none _ (filter (fun r => isnull (Loss r)) l)).
    + rewrite app_nil_r. apply filter_narrow. intros r Hr.
      apply same_loss_null in Hr. apply negb_true_iff. congruence.
    + apply Forall_forall. intros r Hr. apply filter_In in Hr.
      destruct Hr as [_ Hr].
      destruct (same_loss c (Loss r)) eqn:E; [|reflexivity].
      apply same_loss_null in E. congruence.
Qed.

Lemma StronglySorted_filter {A} (R : A -> A -> Prop) f l :
  StronglySorted R l -> StronglySorted R (filter f l).
Proof.
  induction 1 as [|x l Hs IH Hx]; simpl; [constructor|].
  destruct (f x); [|assumption].
  constructor; [assumption|].
  apply Forall_forall. intros y Hy. apply filter_In in Hy.
  rewrite Forall_forall in Hx. now apply Hx.
Qed.

Lemma StronglySorted_split {A} (R : A -> A -> Prop) k l :
  StronglySorted R l ->
  forall x y, In x (firstn k l) -> In y (skipn k l) -> R x y.
Proof.
  intros Hs. revert k. induction Hs as [|a l Hs IH Ha]; intros k x y.
  - rewrite firstn_nil. intros [].
  - destruct k as [|k]; simpl; [intros []|].
    intros [->|Hx] Hy.
    + rewrite Forall_forall in Ha. apply Ha.
      rewrite <- (firstn_skipn k l). apply in_or_app. now right.
    + eapply IH; eassumption.
Qed.

(* ================================================================== *)
(** ** Properties of the methods *)

Section Props.
Variable py_str : hpval -> string.

Lemma _save_eq s : _save s = (inr tt, saved s).
Proof.
  unfold _save, saved, bind, gets, when, modify, ret.
  destruct s as [l ls h2 dt d c fs hp]; simpl.
  destruct (has_column "Loss" d); reflexivity.
Qed.

Lemma _set_update index l e hp h p s :
  in_index index (df s) = true ->
  _set py_str index l e hp h p s
  = (inr tt, saved (set_df (updated index l e h p (df s)) s)).
Proof.
  intros H. unfold _set, bind at 1, gets. rewrite H.
  unfold bind, modify. rewrite _save_eq. reflexivity.
Qed.

Lemma dict_get_in {V} k (d : dict V) :
  In k (dict_keys d) -> exists v, dict_get k d = Some v.
Proof.
  induction d as [|[k' v'] d IH]; simpl; [tauto|].
  intros [->|H].
  - rewrite String.eqb_refl. eauto.
  - destruct (String.eqb k k'); eauto.
Qed.

Lemma dict_set_keys {V} k (v : V) d :
  In k (dict_keys d) -> dict_keys (dict_set k v d) = dict_keys d.
Proof.
  induction d as [|[k' v'] d IH]; simpl; [tauto|].
  intros H. destruct (String.eqb k k') eqn:E; simpl; [reflexivity|].
  f_equal. apply IH. destruct H as [->|H]; [|assumption].
  rewrite String.eqb_refl in E. discriminate.
Qed.

Lemma update_nth_last {A} (h : list A) x y :
  update_nth (List.length h) y (h ++ [x]) = h ++ [y].
Proof. induction h; simpl; congruence. Qed.

Lemma deref_last l ls h2 dt d c fs h obj :
  deref (List.length h) (mkState l ls h2 dt d c fs (h ++ [obj])) = obj.
Proof. unfold deref. simpl. apply nth_middle. Qed.

Lemma flatten_key_ok key l ls h2 dt d c fs h obj :
  In key (dict_keys obj) ->
  exists obj' dt',
    flatten_key py_str (List.length h) key
      (mkState l ls h2 dt d c fs (h ++ [obj]))
    = (inr tt, mkState l ls h2 dt' d c fs (h ++ [obj']))
    /\ dict_keys obj' = dict_keys obj.
Proof.
  intros Hk. destruct (dict_get_in _ _ Hk) as [v Hv].
  destruct (dict_get_in key (dict_set key (HStr (py_str v)) obj)) as [v' Hv'].
  { now rewrite dict_set_keys. }
  unfold flatten_key, bind, getitem, when, setitem, modify, gets, ret.
  rewrite deref_last, Hv.
  destruct (is_list_or_dict v).
  - rewrite deref_last. unfold set_heap. simpl. rewrite update_nth_last.
    destruct (negb (dict_mem key dt)); simpl.
    + rewrite deref_last, Hv'. eexists _, _. split; [reflexivity|].
      now apply dict_set_keys.
    + eexists _, _. split; [reflexivity|]. now apply dict_set_keys.
  - simpl. destruct (negb (dict_mem key dt)); simpl.
    + rewrite deref_last, Hv. eexists _, _. split; reflexivity.
    + eexists _, _. split; reflexivity.
Qed.

Lemma flatten_loop_ok ks : forall l ls h2 dt d c fs h obj,
  Forall (fun k => In k (dict_keys obj)) ks ->
  exists obj' dt',
    for_each ks (flatten_key py_str (List.length h))
      (mkState l ls h2 dt d c fs (h ++ [obj]))
    = (inr tt, mkState l ls h2 dt' d c fs (h ++ [obj']))
    /\ dict_keys obj' = dict_keys obj.
Proof.
  induction ks as [|k ks IH]; intros l ls h2 dt d c fs h obj Hks; simpl.
  - eexists _, _. split; reflexivity.
  - inversion Hks as [|? ? Hk Hks']; subst.
    destruct (flatten_key_ok k l ls h2 dt d c fs h obj Hk)
      as (obj1 & dt1 & E1 & K1).
    unfold bind. rewrite E1.
    destruct (IH l ls h2 dt1 d c fs h obj1) as (obj2 & dt2 & E2 & K2).
    { rewrite K1. assumption. }
    rewrite E2. eexists _, _. split; [reflexivity|]. congruence.
Qed.

Lemma _set_no_hp index l e hp h p s :
  in_index index (df s) = false -> hp_truth hp s = false ->
  _set py_str index l e hp h p s = (inl (AssertionError NoHyperparameters), s).
Proof.
  intros H Ht. unfold _set, bind at 1, gets. rewrite H.
  destruct hp as [a|]; simpl in *.
  - unfold bind, gets. destruct (deref a s); [reflexivity|discriminate].
  - reflexivity.
Qed.

Lemma _set_insert index l e a h p s :
  in_index index (df s) = false -> hp_truth (Some a) s = true ->
  exists obj' dt',
    dict_keys obj' = dict_keys (deref a s) /\
    _set py_str index l e (Some a) h p s
    = (inr tt,
       saved (mkState (loss s) (loss_summary s) (hist2loss s) dt'
                (frame_append (mkRow index index l e h p obj') (df s))
                (csv s) (files s) (heap s ++ [obj']))).
Proof.
  intros H Ht. destruct s as [l0 ls h2 dt d c fs hp]. simpl in H.
  unfold hp_truth in Ht.
  remember (deref a (mkState l0 ls h2 dt d c fs hp)) as o0 eqn:Eo.
  destruct (flatten_loop_ok (dict_keys o0) l0 ls h2 dt d c fs hp o0)
    as (obj' & dt' & E & K).
  { apply Forall_forall. auto. }
  exists obj', dt'. split; [assumption|].
  cbv [_set bind gets assert_ ret deepcopy modify set_heap set_df].
  cbn [df heap loss loss_summary hist2loss dtypes csv files].
  rewrite H, <- Eo, Ht. cbv iota beta.
  cbn [df heap loss loss_summary hist2loss dtypes csv files].
  rewrite <- Eo, deref_last, E.
  cbn [df heap loss loss_summary hist2loss dtypes csv files].
  rewrite deref_last. apply _save_eq.
Qed.


(** *** Index allocation *)

Lemma fold_max_ge rest : forall i,
  i <= fold_right Z.max i rest /\ Forall (fun j => j <= fold_right Z.max i rest) rest.
Proof.
  induction rest as [|x rest IH]; intros i; simpl.
  - split; [lia|constructor].
  - destruct (IH i) as [Hi Hr]. split; [lia|].
    constructor; [lia|].
    eapply Forall_impl; [|exact Hr]. simpl. intros; lia.
Qed.

Lemma next_index_gt l : Forall (fun j => j < next_index l) l.
Proof.
  destruct l as [|i rest]; [constructor|]. unfold next_index.
  destruct (fold_max_ge rest i) as [Hi Hr].
  constructor; [lia|].
  eapply Forall_impl; [|exact Hr]. simpl. intros; lia.
Qed.

Lemma in_index_false index d :
  Forall (fun j => j < index) (frame_index d) -> in_index index d = false.
Proof.
  unfold in_index. induction 1 as [|j l Hj Hl IH]; simpl; [reflexivity|].
  rewrite IH. destruct (Z.eqb_spec index j); [lia|reflexivity].
Qed.

Lemma in_index_iff index d :
  in_index index d = true <-> In index (frame_index d).
Proof.
  unfold in_index. rewrite existsb_exists. split.
  - intros (j & Hj & E). apply Z.eqb_eq in E. now subst.
  - intros H. exists index. split; [assumption|apply Z.eqb_refl].
Qed.

(** *** [on_start] *)

Lemma on_start_ok hp s :
  hp_truth (Some hp) s = true ->
  exists obj' dt',
    dict_keys obj' = dict_keys (deref hp s) /\
    on_start py_str hp s
    = (inr (next_index (frame_index (df s))),
       saved (mkState (loss s) (loss_summary s) (hist2loss s) dt'
                (frame_append
                   (mkRow (next_index (frame_index (df s)))
                          (next_index (frame_index (df s)))
                          np_inf 0 None true obj')
                   (df s))
                (csv s) (files s) (heap s ++ [obj']))).
Proof.
  intros Ht.
  destruct (_set_insert (next_index (frame_index (df s))) np_inf 0 hp None
              true s) as (obj' & dt' & K & E).
  { apply in_index_false, next_index_gt. }
  { assumption. }
  exists obj', dt'. split; [assumption|].
  unfold on_start, bind at 1, get_indices, gets.
  fold (next_index (frame_index (df s))).
  unfold bind. rewrite E. reflexivity.
Qed.

Lemma on_start_fail hp s :
  hp_truth (Some hp) s = false ->
  on_start py_str hp s = (inl (AssertionError NoHyperparameters), s).
Proof.
  intros Ht.
  unfold on_start, bind at 1, get_indices, gets.
  fold (next_index (frame_index (df s))).
  unfold bind. rewrite _set_no_hp; [reflexivity| |assumption].
  apply in_index_false, next_index_gt.
Qed.

(** *** [on_finish] *)

(** The loss and the epoch count [on_finish] stores for a list of
    readings. *)
Lemma on_finish_eq index historyfile s :
  on_finish py_str index historyfile s
  = if in_index index (df s) then
      match files s historyfile with
      | None => (inl (ValueError (HistoryFileNotFound historyfile)), s)
      | Some (Unreadable why) => (inl (unpickling_error why), s)
      | Some (Pickled history) =>
          match dict_get (loss s) history with
          | None => (inl (AssertionError (KeyNotIn (loss s))), s)
          | Some readings =>
              (inr tt,
               saved (set_df
                        (updated index
                           (if (0 <? List.length readings)%nat
                            then loss_summary s readings else np_inf)
                           (List.length readings) (Some historyfile) false
                           (df s)) s))
          end
      end
    else (inl (AssertionError (IndexNotIn index)), s).
Proof.
  unfold on_finish, bind at 1, get_indices, gets.
  fold (in_index index (df s)).
  destruct (in_index index (df s)) eqn:Hin; [|reflexivity].
  unfold assert_, bind at 1, ret. unfold bind at 1.
  unfold except_OSError, open_load.
  destruct (files s historyfile) as [[history|why]|];
    [|destruct why; reflexivity|reflexivity].
  unfold bind at 1, gets. unfold dict_mem.
  destruct (dict_get (loss s) history) as [readings|]; [|reflexivity].
  unfold bind at 1, ret. unfold bind at 1.
  now apply _set_update.
Qed.

(** *** What [_save] and the writes keep *)



Lemma updated_columns index l e h p d :
  columns (updated index l e h p d) = columns d.
Proof. reflexivity. Qed.

Lemma updated_rows index l e h p d :
  rows (updated index l e h p d)
  = map (fun r => if label r =? index
                  then mkRow (label r) (ID r) l e h p (HP r) else r)
        (rows d).
Proof.
  unfold updated, set_value. simpl. rewrite !map_map.
  apply map_ext. intros r.
  destruct (label r =? index) eqn:E;
    repeat (cbn -[Z.eqb]; rewrite ?E); reflexivity.
Qed.

Lemma saved_rows_perm s : Permutation (rows (df (saved s))) (rows (df s)).
Proof.
  unfold saved. simpl. destruct (has_column "Loss" (df s)); simpl.
  - apply nargsort_perm.
  - reflexivity.
Qed.


Lemma saved_columns s : columns (df (saved s)) = columns (df s).
Proof.
  unfold saved. simpl. destruct (has_column "Loss" (df s)); reflexivity.
Qed.

Lemma saved_csv s : csv (saved s) = Some (df (saved s)).
Proof. reflexivity. Qed.

Lemma saved_sorted s :
  frame_ok (df s) -> StronglySorted row_le (rows (df (saved s))).
Proof.
  unfold frame_ok, saved. simpl. intros H.
  destruct (has_column "Loss" (df s)) eqn:E; simpl.
  - apply nargsort_sorted.
  - destruct (rows (df s)); [constructor|].
    assert (false = true) by (apply H; discriminate). discriminate.
Qed.

Lemma saved_frame_ok s : frame_ok (df s) -> frame_ok (df (saved s)).
Proof.
  unfold frame_ok. intros H Hne. unfold has_column. rewrite saved_columns.
  apply H. intros E. apply Hne.
  apply Permutation_nil. rewrite <- E. symmetry. apply saved_rows_perm.
Qed.

Lemma add_columns_keeps c new : forall cols,
  existsb (String.eqb c) cols = true ->
  existsb (String.eqb c) (add_columns new cols) = true.
Proof.
  induction new as [|n new IH]; intros cols H; simpl; [assumption|].
  apply IH. destruct (existsb (String.eqb n) cols); [assumption|].
  rewrite existsb_app, H. reflexivity.
Qed.

Lemma add_columns_in c new : forall cols,
  In c new -> existsb (String.eqb c) (add_columns new cols) = true.
Proof.
  induction new as [|n new IH]; intros cols H; simpl; [destruct H|].
  destruct H as [->|H]; [|now apply IH].
  apply add_columns_keeps.
  destruct (existsb (String.eqb c) cols) eqn:E; [assumption|].
  rewrite existsb_app. simpl. rewrite String.eqb_refl.
  now rewrite orb_true_r.
Qed.

Lemma frame_append_has_Loss r d : has_column "Loss" (frame_append r d) = true.
Proof.
  unfold has_column.
  change (columns (frame_append r d))
    with (add_columns (keys ++ dict_keys (HP r)) (columns d)).
  apply add_columns_in, in_or_app. left. unfold keys. simpl. auto.
Qed.

Lemma frame_append_ok r d : frame_ok (frame_append r d).
Proof. intros _. apply frame_append_has_Loss. Qed.

Lemma updated_ok index l e h p d :
  frame_ok d -> frame_ok (updated index l e h p d).
Proof.
  unfold frame_ok. intros H Hne. unfold has_column.
  rewrite updated_columns. apply H. intros E. apply Hne.
  rewrite updated_rows, E. reflexivity.
Qed.

(** *** Every outcome of [_set] and [on_start] *)

Lemma _set_outcome index l e hp h p s :
  set_outcome index l e hp h p s (_set py_str index l e hp h p s).
Proof.
  destruct (in_index index (df s)) eqn:Hin.
  - rewrite _set_update by assumption. now constructor.
  - destruct (hp_truth hp s) eqn:Ht.
    + destruct hp as [a|]; [|discriminate].
      destruct (_set_insert index l e a h p s Hin Ht) as (obj' & dt' & K & E).
      rewrite E. now apply set_inserts with (a := a).
    + rewrite _set_no_hp by assumption. now constructor.
Qed.

Lemma on_start_outcome hp s :
  set_outcome (next_index (frame_index (df s))) np_inf 0 (Some hp) None true s
    (match on_start py_str hp s with
     | (inr _, s') => (inr tt, s')
     | (inl e, s') => (inl e, s')
     end)
  /\ (forall i s', on_start py_str hp s = (inr i, s') ->
        i = next_index (frame_index (df s))).
Proof.
  destruct (hp_truth (Some hp) s) eqn:Ht.
  - destruct (on_start_ok hp s Ht) as (obj' & dt' & K & E). rewrite E.
    split; [|congruence].
    apply set_inserts with (a := hp); auto.
    apply in_index_false, next_index_gt.
  - rewrite on_start_fail by assumption. split; [|congruence].
    constructor; [|assumption]. apply in_index_false, next_index_gt.
Qed.

(** *** Runs *)



Lemma set_outcome_ok index l e hp h p s r :
  frame_ok (df s) -> set_outcome index l e hp h p s r -> frame_ok (df (snd r)).
Proof.
  intros Hok H. inversion H; subst; simpl snd.
  - apply saved_frame_ok. simpl. now apply updated_ok.
  - assumption.
  - apply saved_frame_ok. simpl. apply frame_append_ok.
Qed.

Lemma perform_frame_ok c s :
  frame_ok (df s) -> frame_ok (df (snd (perform py_str c s))).
Proof.
  intros Hok. destruct c as [hp|index historyfile]; unfold perform, bind, ret.
  - destruct (on_start_outcome hp s) as [Ho _].
    apply set_outcome_ok in Ho; [|exact Hok].
    destruct (on_start py_str hp s) as [[e|i] s']; exact Ho.
  - rewrite on_finish_eq.
    destruct (in_index index (df s)); [|assumption].
    destruct (files s historyfile) as [[history|why]|]; [|assumption|assumption].
    destruct (dict_get (loss s) history); [|assumption].
    apply saved_frame_ok. simpl. now apply updated_ok.
Qed.

(** Every ledger that lifecycle calls build from a new table has a frame
    with the column ['Loss'] as soon as it has a row. *)
Lemma run_frame_ok cs : forall s,
  frame_ok (df s) -> frame_ok (df (snd (run py_str cs s))).
Proof.
  induction cs as [|c cs IH]; intros s Hok; simpl; [assumption|].
  pose proof (perform_frame_ok c s Hok) as Hc.
  destruct (perform py_str c s) as [r s1]. simpl in Hc.
  specialize (IH s1 Hc). destruct (run py_str cs s1) as [rs s2].
  exact IH.
Qed.


(* ================================================================== *)
(** ** The ledger's properties *)


(** The [Pending] column after [on_start]: the new row is there and every
    row with the returned index is pending. *)
Lemma on_start_pending hp s i s' :
  on_start py_str hp s = (inr i, s') ->
  (exists r, In r (rows (df s')) /\ label r = i) /\
  (forall r, In r (rows (df s')) -> label r = i -> Pending r = true).
Proof.
  intros H. destruct (hp_truth (Some hp) s) eqn:Ht.
  - destruct (on_start_ok hp s Ht) as (obj' & dt' & _ & E).
    rewrite E in H. inversion H; subst i s'; clear H.
    pose proof (next_index_gt (frame_index (df s))) as Hgt.
    set (i := next_index (frame_index (df s))) in *.
    set (s1 := mkState _ _ _ _ _ _ _ _).
    assert (Hin : forall r, In r (rows (df (saved s1))) <->
                            In r (rows (df s) ++ [mkRow i i np_inf 0 None true obj'])).
    { intros r. split; apply Permutation_in;
        [|symmetry]; apply (saved_rows_perm s1). }
    split.
    + eexists. split; [apply Hin, in_or_app; right; left; reflexivity|].
      reflexivity.
    + intros r Hr Hl. apply Hin, in_app_or in Hr.
      destruct Hr as [Hr|[<-|[]]]; [|reflexivity].
      rewrite Forall_forall in Hgt.
      specialize (Hgt (label r) (in_map label _ _ Hr)). lia.
  - rewrite on_start_fail in H by assumption. discriminate.
Qed.

(** C3.  When [on_finish index historyfile] returns, the history file held
    a dict with the metric key, and the row of [index] has [Epochs] equal to
    the number of readings, [Loss] equal to [loss_summary] of the readings
    when there is a reading and to [np.inf] when there is none (and then
    [Epochs] is 0), [History] equal to [historyfile] and [Pending] false. *)
Theorem on_finish_postcondition index historyfile s s' :
  on_finish py_str index historyfile s = (inr tt, s') ->
  exists history readings,
    files s historyfile = Some (Pickled history) /\
    dict_get (loss s) history = Some readings /\
    (exists r, In r (rows (df s')) /\ label r = index) /\
    (forall r, In r (rows (df s')) -> label r = index ->
       Epochs r = List.length readings /\
       Loss r = (if (0 <? List.length readings)%nat
                 then loss_summary s readings else np_inf) /\
       History r = Some historyfile /\
       Pending r = false /\
       (readings = [] -> Loss r = np_inf /\ Epochs r = 0%nat)).
Proof.
  rewrite on_finish_eq.
  destruct (in_index index (df s)) eqn:Hin; [|discriminate].
  destruct (files s historyfile) as [[history|why]|]; [|discriminate|discriminate].
  destruct (dict_get (loss s) history) as [readings|] eqn:Hk; [|discriminate].
  intros H. inversion H; subst s'; clear H.
  exists history, readings. split; [reflexivity|]. split; [assumption|].
  set (l := if (0 <? List.length readings)%nat then _ else _).
  set (s1 := set_df _ s).
  assert (Hrows : forall r, In r (rows (df (saved s1))) <->
            In r (map (fun r => if label r =? index
                                then mkRow (label r) (ID r) l
                                       (List.length readings)
                                       (Some historyfile) false (HP r)
                                else r) (rows (df s)))).
  { intros r. unfold s1. rewrite <- updated_rows.
    split; apply Permutation_in; [|symmetry]; apply (saved_rows_perm s1). }
  split.
  - apply in_index_iff in Hin. unfold frame_index in Hin.
    apply in_map_iff in Hin. destruct Hin as (r0 & Hl & Hr0).
    eexists. split.
    + apply Hrows, in_map_iff. exists r0. split; [reflexivity|assumption].
    + apply Z.eqb_eq in Hl. rewrite Hl. simpl. now apply Z.eqb_eq.
  - intros r Hr Hl. apply Hrows, in_map_iff in Hr.
    destruct Hr as (r0 & E & _).
    destruct (label r0 =? index) eqn:E0.
    + subst r. simpl. do 4 (split; [reflexivity|]).
      intros E1. unfold l. rewrite E1. split; reflexivity.
    + subst r. apply Z.eqb_neq in E0. contradiction.
Qed.

(** C4.  An [on_finish] that raises leaves the interpreter state as it
    found it: the frame with the row's [Pending], [Loss], [Epochs] and
    [History], the csv file and everything else. *)
Theorem on_finish_failure_atomic index historyfile s e s' :
  on_finish py_str index historyfile s = (inl e, s') -> s' = s.
Proof.
  rewrite on_finish_eq.
  destruct (in_index index (df s)); [|congruence].
  destruct (files s historyfile) as [[history|why]|]; [|congruence|congruence].
  destruct (dict_get (loss s) history); congruence.
Qed.


Lemma kept_perm ip l l' :
  Permutation l l' -> Permutation (kept ip l) (kept ip l').
Proof.
  intros H. destruct ip; simpl; [|assumption].
  induction H; simpl.
  - constructor.
  - destruct (negb (Pending x)); [now constructor|assumption].
  - destruct (negb (Pending x)), (negb (Pending y));
      try reflexivity; apply perm_swap.
  - etransitivity; eassumption.
Qed.

(** C6 (amended).  On a frame that has the column ['Loss'],
    [get_k_lowest k ignore_pending] never changes the state.  It raises the
    [ValueError] when fewer than [k] of the frame's rows (of its rows that
    are not pending, when asked to ignore the pending ones) are there to
    choose from.  Otherwise it returns the first [k] rows of [sorted]: the
    rows to choose from in ascending order of loss (null last), so that
    every returned row has a loss no greater than every row left out.  Ties
    are not broken by index: on a frame of up to 16 rows, rows of equal
    loss come in the order they have in the frame; on a longer one in the
    order numpy's sort leaves them in. *)
Theorem get_k_lowest_spec k ignore_pending s :
  has_column "Loss" (df s) = true ->
  exists sorted,
    Permutation sorted (kept ignore_pending (rows (df s))) /\
    StronglySorted row_le sorted /\
    get_k_lowest k ignore_pending s
    = ((if (List.length (kept ignore_pending (rows (df s))) <? k)%nat
        then inl (ValueError
                    (TopK k (List.length
                               (kept ignore_pending (rows (df s))))))
        else inr (mkDF (columns (df s)) (firstn k sorted))),
       s) /\
    (forall r r',
       In r (firstn k sorted) -> In r' (skipn k sorted) -> row_le r r') /\
    ((List.length (rows (df s)) <= 16)%nat ->
     forall c,
       filter (fun r => same_loss c (Loss r)) sorted
       = filter (fun r => same_loss c (Loss r))
                (kept ignore_pending (rows (df s)))).
Proof.
  intros Hcol.
  assert (Hs : StronglySorted row_le
                 (kept ignore_pending (nargsort (rows (df s))))).
  { destruct ignore_pending; simpl.
    - apply StronglySorted_filter, nargsort_sorted.
    - apply nargsort_sorted. }
  assert (Hp : Permutation (kept ignore_pending (nargsort (rows (df s))))
                           (kept ignore_pending (rows (df s))))
    by apply kept_perm, nargsort_perm.
  exists (kept ignore_pending (nargsort (rows (df s)))).
  split; [assumption|]. split; [assumption|]. split; [|split].
  - rewrite <- (Permutation_length Hp).
    unfold get_k_lowest, bind at 1, gets. rewrite Hcol. cbv zeta.
    set (data := if ignore_pending then _ else _).
    assert (Er : rows data = kept ignore_pending (nargsort (rows (df s))))
      by (unfold data; destruct ignore_pending; reflexivity).
    assert (Ec : columns data = columns (df s))
      by (unfold data; destruct ignore_pending; reflexivity).
    clearbody data. rewrite Er, Ec.
    destruct (Nat.ltb_spec
                (List.length (kept ignore_pending (nargsort (rows (df s)))))
                k) as [Hlt|Hge]; [reflexivity|].
    unfold bind. rewrite (proj2 (Nat.leb_le _ _) Hge). reflexivity.
  - intros r r'. now apply StronglySorted_split.
  - intros _ c. destruct ignore_pending; simpl.
    + rewrite filter_comm, nargsort_stable. apply filter_comm.
    + apply nargsort_stable.
Qed.

Lemma get_k_lowest_one ignore_pending s data s' :
  get_k_lowest 1 ignore_pending s = (inr data, s') ->
  exists r, rows data = [r].
Proof.
  unfold get_k_lowest, bind at 1, gets.
  destruct (has_column "Loss" (df s)); [|discriminate]. cbv zeta.
  set (l := rows (if ignore_pending then _ else _)).
  destruct (Nat.ltb_spec (List.length l) 1) as [Hlt|Hge]; [discriminate|].
  unfold bind. rewrite (proj2 (Nat.leb_le 1 (List.length l)) Hge).
  intros H. inversion H; subst; clear H. simpl.
  destruct l as [|r l]; simpl in *; [lia|]. eauto.
Qed.

(** C7 (amended).  [get_best ignore_pending] raises what
    [get_k_lowest 1 ignore_pending] raises, and otherwise returns the one
    row that call returns as a dict with exactly the five keys of
    [self.keys]: ID, Loss, Epochs, History and Pending, and no key for a
    hyperparameter column. *)
Theorem get_best_spec ignore_pending s :
  match get_k_lowest 1 ignore_pending s with
  | (inr data, s') =>
      exists r,
        rows data = [r] /\
        get_best ignore_pending s
        = (inr [("ID", CInt (ID r));
                ("Loss", CFloat (Loss r));
                ("Epochs", CInt (Z.of_nat (Epochs r)));
                ("History",
                 match History r with Some f => CStr f | None => CNone end);
                ("Pending", CBool (Pending r))],
           s')
  | (inl e, s') => get_best ignore_pending s = (inl e, s')
  end.
Proof.
  unfold get_best, bind.
  destruct (get_k_lowest 1 ignore_pending s) as [[e|data] s'] eqn:E;
    [reflexivity|].
  destruct (get_k_lowest_one _ _ _ _ E) as [r Hr].
  exists r. split; [assumption|]. rewrite Hr. reflexivity.
Qed.

Lemma saved_written_through s :
  frame_ok (df s) -> written_through (saved s) /\ frame_ok (df (saved s)).
Proof.
  intros H. split; [split|].
  - apply saved_csv.
  - now apply saved_sorted.
  - now apply saved_frame_ok.
Qed.

Lemma set_outcome_written index l e hp h p s s' :
  frame_ok (df s) ->
  set_outcome index l e hp h p s (inr tt, s') ->
  written_through s' /\ frame_ok (df s').
Proof.
  intros Hok H. inversion H; subst.
  - apply saved_written_through. simpl. now apply updated_ok.
  - apply saved_written_through. simpl. apply frame_append_ok.
Qed.

(** The rows [_set] leaves: the rows it found with the four cells of
    [index] overwritten, or the rows it found and one more. *)
Lemma set_outcome_rows index l e hp h p s s' :
  set_outcome index l e hp h p s (inr tt, s') ->
  (in_index index (df s) = true ->
   Permutation (rows (df s')) (rows (updated index l e h p (df s)))) /\
  (in_index index (df s) = false ->
   exists a,
     hp = Some a /\
     Permutation (map entry (rows (df s')))
       (map entry (rows (df s))
        ++ [(index, index, l, e, h, p, dict_keys (deref a s))])).
Proof.
  intros H. inversion H as [Hin E|?|a obj' dt' Hin Ehp Ht K E]; subst.
  - split; [|congruence]. intros _.
    apply (saved_rows_perm (set_df (updated index l e h p (df s)) s)).
  - split; [congruence|]. intros _. exists a. split; [reflexivity|].
    rewrite (Permutation_map entry (saved_rows_perm _)).
    cbn [df]. unfold frame_append. cbn [rows].
    rewrite map_app. unfold entry at 2. cbn [map label ID Loss Epochs History
                                              Pending HP].
    rewrite K. reflexivity.
Qed.

(** C9.  In a ledger whose frame has the column ['Loss'] as soon as it has
    a row, every [_set], [on_start] and [on_finish] that returns leaves the
    csv file holding the frame as it is in memory after the call, with the
    rows in ascending order of [Loss]; and that frame holds the table with
    the mutation of this call: the rows that were there, with the four cells
    of [index] overwritten when the call updates a row, and with one more
    row, of the given index and cells and with the hyperparameters of [hp],
    when the call adds one. *)
Theorem write_through s :
  frame_ok (df s) ->
  (forall index l e hp h p s',
     _set py_str index l e hp h p s = (inr tt, s') ->
     written_through s' /\ frame_ok (df s') /\
     (in_index index (df s) = true ->
      Permutation (rows (df s')) (rows (updated index l e h p (df s)))) /\
     (in_index index (df s) = false ->
      exists a,
        hp = Some a /\
        (fresh_names (deref a s) ->
         Permutation (map entry (rows (df s')))
           (map entry (rows (df s))
            ++ [(index, index, l, e, h, p, dict_keys (deref a s))])))) /\
  (forall hp i s',
     on_start py_str hp s = (inr i, s') ->
     written_through s' /\ frame_ok (df s') /\
     (fresh_names (deref hp s) ->
      Permutation (map entry (rows (df s')))
        (map entry (rows (df s))
         ++ [(i, i, np_inf, 0%nat, None, true, dict_keys (deref hp s))]))) /\
  (forall index historyfile s',
     on_finish py_str index historyfile s = (inr tt, s') ->
     written_through s' /\ frame_ok (df s') /\
     exists history readings,
       files s historyfile = Some (Pickled history) /\
       dict_get (loss s) history = Some readings /\
       Permutation (rows (df s'))
         (rows (updated index
                  (if (0 <? List.length readings)%nat
                   then loss_summary s readings else np_inf)
                  (List.length readings) (Some historyfile) false (df s)))).
Proof.
  intros Hok. split; [|split].
  - intros index l e hp h p s' H.
    pose proof (_set_outcome index l e hp h p s) as Ho. rewrite H in Ho.
    destruct (set_outcome_written _ _ _ _ _ _ _ _ Hok Ho) as [Hw Hf].
    destruct (set_outcome_rows _ _ _ _ _ _ _ _ Ho) as [Hu Hi].
    split; [exact Hw|]. split; [exact Hf|]. split; [exact Hu|].
    intros Hin. destruct (Hi Hin) as (a & Ea & Hp).
    exists a. split; [exact Ea|]. intros _. exact Hp.
  - intros hp i s' H.
    destruct (on_start_outcome hp s) as [Ho Hn]. rewrite H in Ho.
    destruct (set_outcome_written _ _ _ _ _ _ _ _ Hok Ho) as [Hw Hf].
    destruct (set_outcome_rows _ _ _ _ _ _ _ _ Ho) as [_ Hi].
    split; [exact Hw|]. split; [exact Hf|]. intros _.
    destruct Hi as (a & Ea & Hp).
    { apply in_index_false, next_index_gt. }
    inversion Ea; subst a. rewrite (Hn i s' H). exact Hp.
  - intros index historyfile s'. rewrite on_finish_eq.
    destruct (in_index index (df s)); [|discriminate].
    destruct (files s historyfile) as [[history|why]|];
      [|discriminate|discriminate].
    destruct (dict_get (loss s) history) as [readings|] eqn:Hk;
      [|discriminate].
    intros H. inversion H; subst s'.
    split; [|split].
    + apply saved_written_through. simpl. now apply updated_ok.
    + apply saved_written_through. simpl. now apply updated_ok.
    + exists history, readings. split; [reflexivity|]. split; [exact Hk|].
      apply (saved_rows_perm (set_df _ s)).
Qed.

Lemma set_outcome_heap index l e a h p s r :
  set_outcome index l e (Some a) h p s r ->
  (exists extra, heap (snd r) = heap s ++ extra) /\
  deref a (snd r) = deref a s.
Proof.
  intros H. inversion H; subst; simpl.
  - split; [exists []; now rewrite app_nil_r|reflexivity].
  - split; [exists []; now rewrite app_nil_r|reflexivity].
  - split; [eexists; reflexivity|].
    match goal with
    | Ht : hp_truth (Some ?x) _ = true |- _ =>
        simpl in Ht; unfold deref in *; simpl; apply app_nth1;
        destruct (Nat.lt_ge_cases x (List.length (heap s))) as [|Hge];
        [assumption|rewrite (nth_overflow _ _ Hge) in Ht; discriminate]
    end.
Qed.

(** C10.  [_set] and [on_start] leave the dict the caller passed as [hp]
    as it was: the conversion of list and dict values to strings is done on
    a copy, a new object, and every object the heap held before the call
    is unchanged after it. *)
Theorem set_keeps_caller_hp index l e hp h p s :
  (exists extra,
     heap (snd (_set py_str index l e (Some hp) h p s)) = heap s ++ extra) /\
  deref hp (snd (_set py_str index l e (Some hp) h p s)) = deref hp s /\
  (exists extra, heap (snd (on_start py_str hp s)) = heap s ++ extra) /\
  deref hp (snd (on_start py_str hp s)) = deref hp s.
Proof.
  pose proof (_set_outcome index l e (Some hp) h p s) as Hs.
  apply set_outcome_heap in Hs. destruct Hs as [H1 H2].
  destruct (on_start_outcome hp s) as [Ho _].
  apply set_outcome_heap in Ho.
  destruct (on_start py_str hp s) as [[e'|i] s']; simpl in *; tauto.
Qed.

(** [update_hist2loss] on a table that has a row: the first turn of the
    loop raises, with the new attribute [hist2loss] set and nothing else
    changed. *)
Lemma update_hist2loss_raises f s :
  rows (df s) <> [] ->
  exists e,
    update_hist2loss f s = (inl e, set_hist2loss (Some f) s) /\
    (e = AttributeError (NoAttribute "update") \/ e = IndexError OutOfBounds).
Proof.
  intros Hne. unfold update_hist2loss, bind at 1, modify.
  unfold bind at 1, gets. simpl df. unfold frame_index.
  destruct (rows (df s)) as [|r0 rs] eqn:Er; [contradiction|].
  simpl map. simpl for_each. unfold bind at 1. unfold bind at 1.
  unfold bind at 1, gets. unfold iloc.
  destruct (_ && _); [|eexists; split; [reflexivity|now right]].
  destruct (nth_error _ _); [|eexists; split; [reflexivity|now right]].
  eexists; split; [reflexivity|now left].
Qed.

End Props.

(** [get_pending] raises on every ledger. *)
Lemma get_pending_raises s : get_pending s = (inl NotImplementedError, s).
Proof. reflexivity. Qed.

(* ================================================================== *)
(** ** The properties on the example ledgers *)

(** The examples are closed terms: both sides are evaluated. *)
Ltac evaluate :=
  vm_compute;
  repeat split;
  first [reflexivity | lia | discriminate].



(** C2 on the code: after [on_start] has returned index 0 on a new ledger
    the row of 0 is pending, and [get_pending] raises
    [NotImplementedError]. *)
Theorem get_pending_after_on_start :
  fst (on_start str_example 0%nat new_ledger) = inr 0 /\
  map (fun r => (label r, Pending r)) (rows (df one_pending)) = [(0, true)] /\
  fst (get_pending one_pending) = inl NotImplementedError.
Proof. evaluate. Qed.

(** Trial 0 of the example ledger, finished with ['0_history.pkl']. *)
Lemma on_finish_postcondition_witness :
  exists history readings,
    files one_pending "0_history.pkl" = Some (Pickled history) /\
    dict_get (loss one_pending) history = Some readings /\
    (exists r, In r (rows (df one_finished)) /\ label r = 0) /\
    (forall r, In r (rows (df one_finished)) -> label r = 0 ->
       Epochs r = List.length readings /\
       Loss r = (if (0 <? List.length readings)%nat
                 then loss_summary one_pending readings else np_inf) /\
       History r = Some "0_history.pkl" /\
       Pending r = false /\
       (readings = [] -> Loss r = np_inf /\ Epochs r = 0%nat)).
Proof.
  assert (H : on_finish str_example 0 "0_history.pkl" one_pending
               = (inr tt, one_finished)) by evaluate.
  exact (on_finish_postcondition str_example 0 "0_history.pkl" one_pending
           one_finished H).
Defined.

(** The row a finished trial is left with, for two readings and for none. *)
Lemma on_finish_examples :
  rows (df one_finished)
  = [mkRow 0 0 (Finite (1 # 2)) 2 (Some "0_history.pkl") false
       [("lr", HFloat (Finite (1 # 10))); ("layers", HStr "[3, 4]")]] /\
  rows (df (snd (on_finish str_example 0 "3_history.pkl" one_pending)))
  = [mkRow 0 0 PosInf 0 (Some "3_history.pkl") false
       [("lr", HFloat (Finite (1 # 10))); ("layers", HStr "[3, 4]")]].
Proof. evaluate. Qed.

(** A history file without the metric key: [on_finish] raises and the
    ledger with the pending trial is as before. *)
Lemma on_finish_failure_atomic_witness :
  fst (on_finish str_example 0 "4_history.pkl" one_pending)
  = inl (AssertionError (KeyNotIn "loss")) /\
  snd (on_finish str_example 0 "4_history.pkl" one_pending) = one_pending.
Proof.
  assert (H : on_finish str_example 0 "4_history.pkl" one_pending
               = (inl (AssertionError (KeyNotIn "loss")),
                  snd (on_finish str_example 0 "4_history.pkl" one_pending)))
    by evaluate.
  split; [evaluate|].
  exact (on_finish_failure_atomic str_example 0 "4_history.pkl" one_pending
           (AssertionError (KeyNotIn "loss"))
           (snd (on_finish str_example 0 "4_history.pkl" one_pending)) H).
Defined.

(** C5 on the code: trial 0 is finished with readings 0.2, 0.5 and loss 0.5
    (the last reading).  [update_hist2loss] with the summary that takes the
    first reading raises [AttributeError]; the loss in the table is still
    0.5, [loss_summary] still takes the last reading, and nothing is written
    to the csv file. *)
Theorem update_hist2loss_on_finished_trial :
  map (fun r => (label r, Loss r, History r)) (rows (df one_finished))
  = [(0, Finite (1 # 2), Some "0_history.pkl")] /\
  first_reading [Finite (1 # 5); Finite (1 # 2)] = Finite (1 # 5) /\
  fst (update_hist2loss first_reading one_finished)
  = inl (AttributeError (NoAttribute "update")) /\
  df (snd (update_hist2loss first_reading one_finished)) = df one_finished /\
  csv (snd (update_hist2loss first_reading one_finished)) = csv one_finished /\
  loss_summary (snd (update_hist2loss first_reading one_finished))
               [Finite (1 # 5); Finite (1 # 2)]
  = Finite (1 # 2).
Proof. evaluate. Qed.

(** C6, as first stated, fails: trials 0 and 1 are both finished with loss
    0.5, the row of 1 stands first in the frame, and [get_k_lowest] and
    [get_best] give trial 1, not the lower index 0. *)
Lemma get_best_tie_counterexample :
  map (fun r => (label r, Loss r, Pending r)) (rows (df tied))
  = [(1, Finite (1 # 2), false); (0, Finite (1 # 2), false)] /\
  (exists data,
     fst (get_k_lowest 1 true tied) = inr data /\
     map label (rows data) = [1]) /\
  fst (get_best true tied)
  = inr [("ID", CInt 1); ("Loss", CFloat (Finite (1 # 2)));
         ("Epochs", CInt 2); ("History", CStr "0_history.pkl");
         ("Pending", CBool false)].
Proof.
  split; [evaluate|]. split; [|evaluate].
  eexists. split; vm_compute; reflexivity.
Qed.

(** On a new ledger the frame has no column ['Loss'] and [get_k_lowest]
    raises [KeyError], where [_save] tests for the column first. *)
Lemma get_k_lowest_new_ledger :
  fst (get_k_lowest 1 true new_ledger) = inl (KeyError (NoKey "Loss")).
Proof. evaluate. Qed.

(** Losses 0.5 and 0.2: the lowest is the trial with 0.2; asking for three
    of two finished trials raises. *)
Lemma get_k_lowest_spec_witness :
  map (fun r => (label r, Loss r, Pending r)) (rows (df ranked))
  = [(1, Finite (1 # 5), false); (0, Finite (1 # 2), false)] /\
  (exists sorted,
     Permutation sorted (kept true (rows (df ranked))) /\
     StronglySorted row_le sorted /\
     get_k_lowest 1 true ranked
     = (inr (mkDF (columns (df ranked)) (firstn 1 sorted)), ranked) /\
     (forall c,
        filter (fun r => same_loss c (Loss r)) sorted
        = filter (fun r => same_loss c (Loss r))
                 (kept true (rows (df ranked))))) /\
  get_k_lowest 3 true ranked = (inl (ValueError (TopK 3 2)), ranked) /\
  map label (rows (df ranked)) = [1; 0] /\
  (exists data,
     fst (get_k_lowest 1 true ranked) = inr data /\
     map label (rows data) = [1]).
Proof.
  assert (Hcol : has_column "Loss" (df ranked) = true) by evaluate.
  assert (H16 : (List.length (rows (df ranked)) <= 16)%nat)
    by (vm_compute; lia).
  assert (Hn : List.length (kept true (rows (df ranked))) = 2%nat)
    by evaluate.
  split; [evaluate|]. split; [|split; [|split]].
  - destruct (get_k_lowest_spec 1 true ranked Hcol)
      as (sorted & Hp & Hs & H1 & _ & H5).
    rewrite Hn in H1.
    exists sorted. split; [exact Hp|]. split; [exact Hs|].
    split; [exact H1|exact (H5 H16)].
  - destruct (get_k_lowest_spec 3 true ranked Hcol)
      as (sorted & _ & _ & H3 & _).
    rewrite Hn in H3. exact H3.
  - evaluate.
  - eexists. split; vm_compute; reflexivity.
Defined.

(** C7, as first stated, fails: ['lr'] is a registered hyperparameter
    column, and the dict [get_best] returns has the five fixed keys and no
    key ['lr']. *)
Lemma get_best_omits_hyperparameters :
  has_column "lr" (df one_finished) = true /\
  dict_mem "lr" (dtypes one_finished) = true /\
  exists d,
    fst (get_best true one_finished) = inr d /\
    dict_keys d = ["ID"; "Loss"; "Epochs"; "History"; "Pending"] /\
    dict_mem "lr" d = false.
Proof.
  split; [evaluate|]. split; [evaluate|].
  eexists. split; [vm_compute; reflexivity|]. evaluate.
Qed.



(** The csv file after an [on_start] and after an [on_finish] on the
    example ledger with trial 0 pending: it holds the frame in memory, which
    has the row of trial 0 and the new row of trial 1, or the row of trial 0
    with the cells [on_finish] wrote. *)
Lemma write_through_witness :
  frame_ok (df one_pending) /\
  fresh_names (deref 0%nat one_pending) /\
  written_through (snd (on_start str_example 0%nat one_pending)) /\
  Permutation
    (map entry (rows (df (snd (on_start str_example 0%nat one_pending)))))
    (map entry (rows (df one_pending))
     ++ [(1, 1, np_inf, 0%nat, None, true, ["lr"; "layers"])]) /\
  written_through (snd (on_finish str_example 0 "0_history.pkl" one_pending)) /\
  Permutation
    (rows (df (snd (on_finish str_example 0 "0_history.pkl" one_pending))))
    (rows (updated 0 (Finite (1 # 2)) 2 (Some "0_history.pkl") false
             (df one_pending))).
Proof.
  assert (Hok : frame_ok (df one_pending)) by (intros _; evaluate).
  assert (Hfresh : fresh_names (deref 0%nat one_pending)).
  { repeat (constructor; [simpl; intuition discriminate|]). constructor. }
  destruct (write_through str_example one_pending Hok) as (_ & H2 & H3).
  assert (E2 : on_start str_example 0%nat one_pending
               = (inr 1, snd (on_start str_example 0%nat one_pending)))
    by evaluate.
  assert (E3 : on_finish str_example 0 "0_history.pkl" one_pending
               = (inr tt,
                  snd (on_finish str_example 0 "0_history.pkl" one_pending)))
    by evaluate.
  destruct (H2 0%nat 1 _ E2) as (Hw2 & _ & Hp2).
  destruct (H3 0 "0_history.pkl" _ E3)
    as (Hw3 & _ & history & readings & Hf & Hk & Hp3).
  split; [exact Hok|]. split; [exact Hfresh|].
  split; [exact Hw2|]. split; [exact (Hp2 Hfresh)|].
  split; [exact Hw3|].
  assert (Ef : files one_pending "0_history.pkl"
               = Some (Pickled [("loss", [Finite (1 # 5); Finite (1 # 2)])]))
    by evaluate.
  rewrite Ef in Hf. injection Hf as Eh. subst history.
  assert (El : loss one_pending = "loss") by evaluate.
  rewrite El in Hk. vm_compute in Hk. injection Hk as Er. subst readings.
  assert (Es : loss_summary one_pending [Finite (1 # 5); Finite (1 # 2)]
               = Finite (1 # 2)) by evaluate.
  rewrite Es in Hp3. exact Hp3.
Defined.

(** The caller's dict after [on_start]: the list is still a list; the row
    holds its string. *)
Lemma on_start_hp_example :
  deref 0%nat (snd (on_start str_example 0%nat new_ledger))
  = [("lr", HFloat (Finite (1 # 10))); ("layers", HList [HInt 3; HInt 4])] /\
  map HP (rows (df (snd (on_start str_example 0%nat new_ledger))))
  = [[("lr", HFloat (Finite (1 # 10))); ("layers", HStr "[3, 4]")]].
Proof. evaluate. Qed.

(* ================================================================== *)
(** ** More of the ledger: what a call stores, what every ledger keeps *)

Section More.

Variable py_str : hpval -> string.

(** *** The loop of [_set] *)

Lemma dict_get_app {V} k (pre d : dict V) :
  ~ In k (dict_keys pre) -> dict_get k (pre ++ d) = dict_get k d.
Proof.
  induction pre as [|[k' v'] pre IH]; simpl; [reflexivity|].
  intros H. destruct (String.eqb_spec k k') as [->|_]; [tauto|].
  apply IH. tauto.
Qed.

Lemma dict_set_app {V} k (v : V) (pre d : dict V) :
  ~ In k (dict_keys pre) -> dict_set k v (pre ++ d) = pre ++ dict_set k v d.
Proof.
  induction pre as [|[k' v'] pre IH]; simpl; [reflexivity|].
  intros H. destruct (String.eqb_spec k k') as [->|_]; [tauto|].
  f_equal. apply IH. tauto.
Qed.

Lemma flatten_key_spec k v l ls h2 dt d c fs
    (h : list (dict hpval)) (pre rest : dict hpval) :
  ~ In k (dict_keys pre) ->
  flatten_key py_str (List.length h) k
    (mkState l ls h2 dt d c fs
       (h ++ ([pre ++ (k, v) :: rest] : list (dict hpval))))
  = (inr tt,
     mkState l ls h2
       (if dict_mem k dt then dt
        else dict_set k (type_of (flatten_value py_str v)) dt)
       d c fs
       (h ++ ([pre ++ (k, flatten_value py_str v) :: rest]
              : list (dict hpval)))).
Proof.
  intros Hk.
  assert (Hg : forall w, dict_get k (pre ++ (k, w) :: rest) = Some w).
  { intros w. rewrite dict_get_app by assumption. simpl.
    now rewrite String.eqb_refl. }
  assert (Hs : forall w w', dict_set k w' (pre ++ (k, w) :: rest)
                            = pre ++ (k, w') :: rest).
  { intros w w'. rewrite dict_set_app by assumption. simpl.
    now rewrite String.eqb_refl. }
  unfold flatten_key, bind, getitem, when, setitem, modify, gets, ret,
    flatten_value.
  rewrite deref_last, Hg.
  destruct (is_list_or_dict v).
  - rewrite deref_last. unfold set_heap. simpl. rewrite update_nth_last, Hs.
    destruct (dict_mem k dt); simpl; [reflexivity|].
    rewrite deref_last, Hg. reflexivity.
  - simpl. destruct (dict_mem k dt); simpl; [reflexivity|].
    rewrite deref_last, Hg. reflexivity.
Qed.

Lemma flatten_loop_spec (rest : dict hpval) :
  forall l ls h2 dt d c fs (h : list (dict hpval)) (pre : dict hpval),
  NoDup (dict_keys rest) ->
  (forall k, In k (dict_keys rest) -> ~ In k (dict_keys pre)) ->
  for_each (dict_keys rest) (flatten_key py_str (List.length h))
    (mkState l ls h2 dt d c fs (h ++ ([pre ++ rest] : list (dict hpval))))
  = (inr tt,
     mkState l ls h2 (registered (flattened py_str rest) dt) d c fs
       (h ++ ([pre ++ flattened py_str rest] : list (dict hpval)))).
Proof.
  induction rest as [|[k v] rest IH]; intros l ls h2 dt d c fs h pre Hnd Hpre.
  - reflexivity.
  - simpl dict_keys. simpl for_each. unfold bind.
    rewrite flatten_key_spec by (apply Hpre; now left).
    inversion Hnd as [|? ? Hk Hnd']; subst.
    replace (pre ++ (k, flatten_value py_str v) :: rest)
      with ((pre ++ [(k, flatten_value py_str v)]) ++ rest)
      by (now rewrite <- app_assoc).
    rewrite IH; [|assumption|].
    + simpl. now rewrite <- app_assoc.
    + intros k' Hk' Hin. unfold dict_keys in Hin.
      rewrite map_app in Hin. apply in_app_or in Hin.
      destruct Hin as [Hin|[<-|[]]].
      * apply (Hpre k'); [now right|assumption].
      * contradiction.
Qed.

Lemma flattened_keys d : dict_keys (flattened py_str d) = dict_keys d.
Proof. unfold dict_keys, flattened. rewrite map_map. reflexivity. Qed.

Lemma flattened_flat d :
  Forall (fun kv => is_list_or_dict (snd kv) = false) (flattened py_str d).
Proof.
  apply Forall_forall. intros kv Hin. apply in_map_iff in Hin.
  destruct Hin as ([k v] & <- & _). simpl. unfold flatten_value.
  destruct (is_list_or_dict v) eqn:E; [reflexivity|assumption].
Qed.

Lemma _set_insert_spec index l e a h p s :
  in_index index (df s) = false -> hp_truth (Some a) s = true ->
  NoDup (dict_keys (deref a s)) ->
  _set py_str index l e (Some a) h p s
  = (inr tt,
     saved (mkState (loss s) (loss_summary s) (hist2loss s)
              (registered (flattened py_str (deref a s)) (dtypes s))
              (frame_append
                 (mkRow index index l e h p (flattened py_str (deref a s)))
                 (df s))
              (csv s) (files s) (heap s ++ [flattened py_str (deref a s)]))).
Proof.
  intros H Ht Hnd. destruct s as [l0 ls h2 dt d c fs hp]. simpl in H.
  unfold hp_truth in Ht.
  remember (deref a (mkState l0 ls h2 dt d c fs hp)) as o0 eqn:Eo.
  pose proof (flatten_loop_spec o0 l0 ls h2 dt d c fs hp [] Hnd
                (fun _ _ F => F)) as E.
  simpl app in E.
  cbv [_set bind gets assert_ ret deepcopy modify set_heap set_df].
  cbn [df heap loss loss_summary hist2loss dtypes csv files].
  rewrite H, <- Eo, Ht. cbv iota beta.
  cbn [df heap loss loss_summary hist2loss dtypes csv files].
  rewrite <- Eo, deref_last.
  match type of E with
  | ?lhs = _ =>
      match goal with
      | |- context [for_each ?a ?b ?c] => change (for_each a b c) with lhs
      end
  end.
  rewrite E.
  cbn [df heap loss loss_summary hist2loss dtypes csv files].
  rewrite deref_last. apply _save_eq.
Qed.

(** [on_start] on a non-empty dict: what it returns and the state it
    leaves. *)
Lemma on_start_started hp s :
  hp_truth (Some hp) s = true ->
  NoDup (dict_keys (deref hp s)) ->
  on_start py_str hp s
  = (inr (next_index (frame_index (df s))), started py_str hp s).
Proof.
  intros Ht Hnd.
  unfold on_start, bind at 1, get_indices, gets.
  fold (next_index (frame_index (df s))).
  unfold bind. rewrite _set_insert_spec; try assumption.
  - reflexivity.
  - apply in_index_false, next_index_gt.
Qed.

(** *** The states a ledger goes through *)

Lemma on_finish_finished index historyfile s :
  on_finish py_str index historyfile s
  = if in_index index (df s) then
      match files s historyfile with
      | None => (inl (ValueError (HistoryFileNotFound historyfile)), s)
      | Some (Unreadable why) => (inl (unpickling_error why), s)
      | Some (Pickled history) =>
          match dict_get (loss s) history with
          | None => (inl (AssertionError (KeyNotIn (loss s))), s)
          | Some readings =>
              (inr tt, finished index historyfile readings s)
          end
      end
    else (inl (AssertionError (IndexNotIn index)), s).
Proof. rewrite on_finish_eq. reflexivity. Qed.

Lemma deref_NoDup a s : heap_ok s -> NoDup (dict_keys (deref a s)).
Proof.
  unfold heap_ok, deref. intros H.
  destruct (nth_in_or_default a (heap s) []) as [Hin | ->].
  - rewrite Forall_forall in H. now apply H.
  - constructor.
Qed.

Lemma hp_truth_in a s : hp_truth (Some a) s = true -> In (deref a s) (heap s).
Proof.
  unfold hp_truth, deref. intros H.
  destruct (nth_in_or_default a (heap s) []) as [Hin|E]; [assumption|].
  rewrite E in H. discriminate.
Qed.

End More.

(* ================================================================== *)
(** ** The import of history files *)

Section Imports.

Variable py_str : hpval -> string.
Variable hp_entry : string -> option (dict hpval).

Lemma deref_alloc (d : dict hpval) s :
  deref (List.length (heap s)) (set_heap (heap s ++ [d]) s) = d.
Proof. unfold deref. simpl. apply nth_middle. Qed.

Lemma started_rows hp s :
  Permutation (rows (df (started py_str hp s)))
    (rows (df s)
     ++ [mkRow (next_index (frame_index (df s)))
               (next_index (frame_index (df s)))
               np_inf 0 None true (flattened py_str (deref hp s))]).
Proof. unfold started. rewrite saved_rows_perm. reflexivity. Qed.

Lemma finished_rows index historyfile readings s :
  Permutation (rows (df (finished index historyfile readings s)))
    (map (fun r => if label r =? index
                   then mkRow (label r) (ID r)
                          (summarized (loss_summary s) readings)
                          (List.length readings) (Some historyfile) false
                          (HP r)
                   else r)
         (rows (df s))).
Proof.
  unfold finished. rewrite saved_rows_perm. unfold set_df. cbn [df].
  rewrite updated_rows. reflexivity.
Qed.

Lemma started_in_index hp s :
  in_index (next_index (frame_index (df s))) (df (started py_str hp s)) = true.
Proof.
  apply in_index_iff. unfold frame_index.
  eapply Permutation_in; [symmetry; apply Permutation_map, started_rows|].
  rewrite map_app. apply in_or_app. right. now left.
Qed.

(** Finishing a label that no row has changes no row. *)
Lemma map_finish_other index (upd : Row -> Row) l :
  Forall (fun j => j < index) (map label l) ->
  map (fun r => if label r =? index then upd r else r) l = l.
Proof.
  induction l as [|r l IH]; simpl; intros H; [reflexivity|].
  inversion H; subst. rewrite IH by assumption.
  destruct (Z.eqb_spec (label r) index); [lia|reflexivity].
Qed.

(** [load], case by case. *)
Lemma load_eq historyfile s :
  (forall d, hp_entry historyfile = Some d -> NoDup (dict_keys d)) ->
  load py_str hp_entry historyfile s
  = match files s historyfile with
    | None => (inl (OSError (NoSuchFile historyfile)), s)
    | Some (Unreadable why) => (inl (unpickling_error why), s)
    | Some (Pickled history) =>
        match hp_entry historyfile with
        | None => (inl (KeyError (NoKey "hp")), s)
        | Some [] =>
            (inl (AssertionError NoHyperparameters),
             set_heap (heap s ++ [[]]) s)
        | Some d =>
            match dict_get (loss s) history with
            | None =>
                (inl (AssertionError (KeyNotIn (loss s))),
                 started py_str (List.length (heap s))
                   (set_heap (heap s ++ [d]) s))
            | Some readings =>
                (inr tt,
                 finished (next_index (frame_index (df s))) historyfile
                   readings
                   (started py_str (List.length (heap s))
                      (set_heap (heap s ++ [d]) s)))
            end
        end
    end.
Proof.
  intros Hnd. unfold load, bind at 1, open_load.
  destruct (files s historyfile) as [[history|why]|] eqn:Hf; [|reflexivity|reflexivity].
  destruct (hp_entry historyfile) as [d|] eqn:Hd; [|reflexivity].
  specialize (Hnd d eq_refl).
  unfold bind at 1, alloc. unfold bind at 1.
  destruct d as [|kv d].
  - rewrite on_start_fail; [reflexivity|].
    unfold hp_truth. now rewrite deref_alloc.
  - rewrite on_start_started;
      [|unfold hp_truth; now rewrite deref_alloc|now rewrite deref_alloc].
    rewrite on_finish_finished, started_in_index.
    change (frame_index (df (set_heap (heap s ++ [kv :: d]) s)))
      with (frame_index (df s)).
    change (files (started py_str (List.length (heap s))
                     (set_heap (heap s ++ [kv :: d]) s)) historyfile)
      with (files s historyfile).
    rewrite Hf.
    change (loss (started py_str (List.length (heap s))
                    (set_heap (heap s ++ [kv :: d]) s)))
      with (loss s).
    destruct (dict_get (loss s) history); reflexivity.
Qed.

End Imports.

(* ================================================================== *)
(** ** The states a ledger goes through *)

Section Steps.

Variable py_str : hpval -> string.
Variable fits : dict hpval -> Prop.
Hypothesis fits_NoDup : forall d, fits d -> NoDup (dict_keys d).

Lemma ledger_steps_trans s1 s2 s3 :
  ledger_steps py_str fits s1 s2 -> ledger_steps py_str fits s2 s3 ->
  ledger_steps py_str fits s1 s3.
Proof.
  intros H12 H23. induction H23 as [|s3 s4 H23 IH H34]; [assumption|].
  eapply steps_more; eassumption.
Qed.

Lemma ledger_step_steps s1 s2 :
  ledger_step py_str fits s1 s2 -> ledger_steps py_str fits s1 s2.
Proof. intros H. eapply steps_more; [apply steps_none|exact H]. Qed.

Lemma step_heap_ok s s' :
  heap_ok s -> ledger_step py_str fits s s' -> heap_ok s'.
Proof.
  unfold heap_ok. intros Hok H.
  destruct H as [hp Ht|index f h r Hi Hf Hk|d Hd].
  - simpl. apply Forall_app. split; [assumption|].
    constructor; [|constructor]. rewrite flattened_keys.
    now apply deref_NoDup.
  - exact Hok.
  - simpl. apply Forall_app. split; [assumption|].
    constructor; [|constructor]. now apply fits_NoDup.
Qed.

(** A property kept by every step holds along every path. *)
Lemma steps_invariant (P : State -> Prop) :
  (forall s s', heap_ok s -> P s -> ledger_step py_str fits s s' -> P s') ->
  forall s s', heap_ok s -> P s -> ledger_steps py_str fits s s' ->
               heap_ok s' /\ P s'.
Proof.
  intros Hstep s s' Hok HP H. induction H as [|s1 s2 H IH H12].
  - split; assumption.
  - destruct IH as [Hok1 HP1]. split.
    + eapply step_heap_ok; eassumption.
    + eapply Hstep; eassumption.
Qed.

Lemma on_start_steps hp s :
  heap_ok s -> ledger_steps py_str fits s (snd (on_start py_str hp s)).
Proof.
  intros Hok. destruct (hp_truth (Some hp) s) eqn:Ht.
  - rewrite on_start_started; [|assumption|now apply deref_NoDup].
    apply ledger_step_steps. now constructor.
  - rewrite on_start_fail by assumption. apply steps_none.
Qed.

Lemma on_finish_steps index historyfile s :
  ledger_steps py_str fits s (snd (on_finish py_str index historyfile s)).
Proof.
  rewrite on_finish_finished.
  destruct (in_index index (df s)) eqn:Hi; [|apply steps_none].
  destruct (files s historyfile) as [[history|why]|] eqn:Hf; [|apply steps_none|apply steps_none].
  destruct (dict_get (loss s) history) as [readings|] eqn:Hk;
    [|apply steps_none].
  apply ledger_step_steps. econstructor; eassumption.
Qed.

Lemma load_steps hp_entry historyfile s :
  (forall d, hp_entry historyfile = Some d -> fits d) ->
  ledger_steps py_str fits s (snd (load py_str hp_entry historyfile s)).
Proof.
  intros Hfit. rewrite load_eq by (intros d Hd; apply fits_NoDup; auto).
  destruct (files s historyfile) as [[history|why]|] eqn:Hf; [|apply steps_none|apply steps_none].
  destruct (hp_entry historyfile) as [d|] eqn:Hd; [|apply steps_none].
  assert (Ha : ledger_steps py_str fits s (set_heap (heap s ++ [d]) s)).
  { apply ledger_step_steps. constructor. now apply Hfit. }
  destruct d as [|kv d]; [exact Ha|].
  assert (Hs : ledger_steps py_str fits s
                 (started py_str (List.length (heap s))
                    (set_heap (heap s ++ [kv :: d]) s))).
  { eapply steps_more; [exact Ha|]. constructor.
    unfold hp_truth. now rewrite deref_alloc. }
  destruct (dict_get (loss s) history) as [readings|] eqn:Hk; [|exact Hs].
  eapply steps_more; [exact Hs|].
  apply step_finish with (history := history).
  - apply (started_in_index py_str (List.length (heap s))
             (set_heap (heap s ++ [kv :: d]) s)).
  - exact Hf.
  - exact Hk.
Qed.

Lemma for_each_steps {A} (body : A -> M unit) xs :
  (forall x s, In x xs -> heap_ok s ->
               ledger_steps py_str fits s (snd (body x s))) ->
  forall s, heap_ok s ->
            ledger_steps py_str fits s (snd (for_each xs body s)).
Proof.
  induction xs as [|x xs IH]; intros Hb s Hok; simpl.
  - apply steps_none.
  - unfold bind. pose proof (Hb x s (or_introl eq_refl) Hok) as Hx.
    destruct (body x s) as [[e|[]] s1]; simpl in *; [exact Hx|].
    eapply ledger_steps_trans; [exact Hx|].
    apply IH.
    + intros y s' Hy. apply Hb. now right.
    + destruct (steps_invariant (fun _ => True) (fun _ _ _ _ _ => I)
                  s s1 Hok I Hx) as [H1 _]. exact H1.
Qed.

Lemma serve_steps hp_entry r s :
  (forall f d, hp_entry f = Some d -> fits d) ->
  heap_ok s ->
  ledger_steps py_str fits s (snd (serve py_str hp_entry r s)).
Proof.
  intros Hfit Hok. destruct r as [hp|index f|f|fs]; simpl.
  - unfold bind, ret. pose proof (on_start_steps hp s Hok) as H.
    destruct (on_start py_str hp s) as [[e|i] s1]; exact H.
  - apply on_finish_steps.
  - apply load_steps. intros d. apply Hfit.
  - unfold load_results. apply for_each_steps; [|assumption].
    intros f s' _ _. apply load_steps. intros d. apply Hfit.
Qed.

Lemma session_steps hp_entry rs : forall s,
  (forall f d, hp_entry f = Some d -> fits d) ->
  heap_ok s ->
  ledger_steps py_str fits s (session py_str hp_entry rs s).
Proof.
  induction rs as [|r rs IH]; intros s Hfit Hok; simpl.
  - apply steps_none.
  - pose proof (serve_steps hp_entry r s Hfit Hok) as Hr.
    eapply ledger_steps_trans; [exact Hr|].
    apply IH; [assumption|].
    destruct (steps_invariant (fun _ => True) (fun _ _ _ _ _ => I)
                s _ Hok I Hr) as [H1 _]. exact H1.
Qed.

End Steps.

(* ================================================================== *)
(** ** What every step keeps *)

Section Kept.

Variable py_str : hpval -> string.
Variable fits : dict hpval -> Prop.

(** *** The rows *)

Lemma step_rows s s' :
  ledger_step py_str fits s s' ->
  (exists new,
     Permutation (rows (df s')) (rows (df s) ++ [new]) /\
     label new = next_index (frame_index (df s)) /\
     row_ok new /\ flat_row new /\ Pending new = true) \/
  (exists upd,
     Permutation (rows (df s')) (map upd (rows (df s))) /\
     forall r, upd r = r \/
               (label (upd r) = label r /\ ID (upd r) = ID r /\
                HP (upd r) = HP r /\ Pending (upd r) = false /\
                History (upd r) <> None)).
Proof.
  intros H. destruct H as [hp Ht|index f h rd Hi Hf Hk|d Hd].
  - left. eexists. split; [apply started_rows|].
    split; [reflexivity|]. split; [|split; [|reflexivity]].
    + split; [reflexivity|]. simpl. split.
      * intros _. repeat split.
      * intros E. discriminate E.
    + apply flattened_flat.
  - right. eexists. split; [apply finished_rows|].
    intros r. simpl. destruct (label r =? index); [right|now left].
    simpl. repeat split. discriminate.
  - right. exists (fun r => r). split; [now rewrite map_id|]. now left.
Qed.

Lemma step_rows_ok s s' :
  ledger_step py_str fits s s' ->
  Forall row_ok (rows (df s)) -> Forall row_ok (rows (df s')).
Proof.
  intros H Hok. destruct (step_rows s s' H)
    as [(new & Hp & _ & Hn & _)|(upd & Hp & Hu)].
  - eapply Permutation_Forall; [symmetry; exact Hp|].
    apply Forall_app. split; [assumption|now constructor].
  - eapply Permutation_Forall; [symmetry; exact Hp|].
    apply Forall_map. eapply Forall_impl; [|exact Hok].
    intros r (Hid & Hpe & Hfi).
    destruct (Hu r) as [->|(Hl & Hi & _ & Hpf & Hh)].
    + unfold row_ok. tauto.
    + unfold row_ok. split; [congruence|]. split; [congruence|auto].
Qed.

Lemma step_rows_flat s s' :
  ledger_step py_str fits s s' ->
  Forall flat_row (rows (df s)) -> Forall flat_row (rows (df s')).
Proof.
  intros H Hok. destruct (step_rows s s' H)
    as [(new & Hp & _ & _ & Hn & _)|(upd & Hp & Hu)].
  - eapply Permutation_Forall; [symmetry; exact Hp|].
    apply Forall_app. split; [assumption|now constructor].
  - eapply Permutation_Forall; [symmetry; exact Hp|].
    apply Forall_map. eapply Forall_impl; [|exact Hok].
    intros r Hr. unfold flat_row in *.
    destruct (Hu r) as [->|(_ & _ & Hh & _)]; [assumption|].
    now rewrite Hh.
Qed.

(** *** The indices *)

Lemma fold_max_in rest : forall i, In (fold_right Z.max i rest) (i :: rest).
Proof.
  induction rest as [|x rest IH]; intros i; simpl; [now left|].
  destruct (Z.max_spec x (fold_right Z.max i rest)) as [[_ ->]|[_ ->]].
  - destruct (IH i) as [H|H]; [now left|right; now right].
  - right. now left.
Qed.

Lemma next_index_seq l n :
  Permutation l (map Z.of_nat (seq 0 n)) -> next_index l = Z.of_nat n.
Proof.
  intros Hp. pose proof (next_index_gt l) as Hgt.
  destruct l as [|i rest].
  - apply Permutation_nil in Hp. destruct n; [reflexivity|discriminate].
  - assert (Hin : In (next_index (i :: rest) - 1) (i :: rest)).
    { unfold next_index. replace (fold_right Z.max i rest + 1 - 1)
        with (fold_right Z.max i rest) by lia. apply fold_max_in. }
    apply (Permutation_in _ Hp) in Hin. apply in_map_iff in Hin.
    destruct Hin as (k & Hk & Hks). apply in_seq in Hks.
    destruct n as [|n]; [lia|].
    assert (Hn : In (Z.of_nat n) (i :: rest)).
    { apply (Permutation_in _ (Permutation_sym Hp)).
      apply in_map, in_seq. lia. }
    rewrite Forall_forall in Hgt. specialize (Hgt _ Hn). lia.
Qed.

Lemma step_indices s s' :
  ledger_step py_str fits s s' ->
  Permutation (frame_index (df s))
    (map Z.of_nat (seq 0 (List.length (rows (df s))))) ->
  Permutation (frame_index (df s'))
    (map Z.of_nat (seq 0 (List.length (rows (df s'))))).
Proof.
  intros H Hi. destruct (step_rows s s' H)
    as [(new & Hp & Hl & _)|(upd & Hp & Hu)].
  - rewrite (Permutation_length Hp), length_app. simpl.
    rewrite Nat.add_1_r, seq_S, map_app. simpl.
    unfold frame_index at 1. rewrite (Permutation_map label Hp), map_app.
    simpl. rewrite Hl, (next_index_seq _ _ Hi).
    apply Permutation_app_tail. exact Hi.
  - rewrite (Permutation_length Hp), length_map.
    unfold frame_index at 1. rewrite (Permutation_map label Hp), map_map.
    erewrite map_ext; [exact Hi|].
    intros r. destruct (Hu r) as [->|(Hl & _)]; [reflexivity|exact Hl].
Qed.

Lemma seq_NoDup n : forall a, NoDup (map Z.of_nat (seq a n)).
Proof.
  induction n as [|n IH]; intros a; simpl; constructor; [|apply IH].
  intros Hin. apply in_map_iff in Hin. destruct Hin as (k & Hk & Hks).
  apply in_seq in Hks. lia.
Qed.

(** *** The schema *)

Lemma add_columns_from c new : forall cols,
  existsb (String.eqb c) (add_columns new cols) = true ->
  existsb (String.eqb c) cols = true \/ In c new.
Proof.
  induction new as [|n new IH]; intros cols H; simpl in *; [now left|].
  apply IH in H. destruct H as [H|H]; [|right; now right].
  destruct (existsb (String.eqb n) cols); [now left|].
  rewrite existsb_app in H. apply orb_true_iff in H.
  destruct H as [H|H]; [now left|]. simpl in H.
  rewrite orb_false_r in H. apply String.eqb_eq in H. right. now left.
Qed.

Lemma dict_get_set_new {V} k k' (v : V) d :
  dict_mem k' d = false ->
  dict_get k (dict_set k' v d)
  = if String.eqb k k' then Some v else dict_get k d.
Proof.
  unfold dict_mem. induction d as [|[k0 v0] d IH]; simpl; intros H.
  - reflexivity.
  - destruct (String.eqb_spec k' k0) as [->|Hne]; [discriminate|].
    simpl. destruct (String.eqb_spec k k0) as [->|Hk0].
    + destruct (String.eqb_spec k0 k'); [congruence|reflexivity].
    + now apply IH.
Qed.

Lemma registered_keeps k t d : forall types,
  dict_get k types = Some t -> dict_get k (registered d types) = Some t.
Proof.
  induction d as [|[k' v] d IH]; intros types H; simpl; [assumption|].
  apply IH. destruct (dict_mem k' types) eqn:E; [assumption|].
  rewrite dict_get_set_new by assumption.
  destruct (String.eqb_spec k k') as [->|_]; [|assumption].
  unfold dict_mem in E. now rewrite H in E.
Qed.

Lemma registered_mem k d : forall types,
  In k (dict_keys d) -> dict_mem k (registered d types) = true.
Proof.
  induction d as [|[k' v] d IH]; intros types H; simpl in *; [tauto|].
  destruct H as [->|H]; [|now apply IH].
  assert (Hm : exists t, dict_get k
            (if dict_mem k types then types
             else dict_set k (type_of v) types) = Some t).
  { destruct (dict_mem k types) eqn:E.
    - unfold dict_mem in E. destruct (dict_get k types); eauto. discriminate.
    - rewrite dict_get_set_new by assumption. rewrite String.eqb_refl. eauto. }
  destruct Hm as [t Ht]. unfold dict_mem at 1.
  now rewrite (registered_keeps k t d _ Ht).
Qed.

(** The type a key is first registered with: the type of its value, [str]
    for a list or a dict. *)
Lemma registered_first k v d types :
  dict_mem k types = false -> NoDup (dict_keys d) -> In (k, v) d ->
  dict_get k (registered d types) = Some (type_of v).
Proof.
  clear py_str fits.
  revert types. induction d as [|[k' v'] d IH]; intros types Hm Hnd Hin;
    simpl in *; [tauto|].
  inversion Hnd as [|? ? Hk' Hnd']; subst.
  destruct Hin as [E|Hin].
  - inversion E; subst. rewrite Hm. apply registered_keeps.
    rewrite dict_get_set_new by assumption. now rewrite String.eqb_refl.
  - apply IH; [|assumption|assumption].
    assert (Hne : k <> k').
    { intros ->. apply Hk'. now apply (in_map fst) in Hin. }
    destruct (dict_mem k' types) eqn:E'; [assumption|].
    unfold dict_mem. rewrite dict_get_set_new by assumption.
    destruct (String.eqb_spec k k'); [contradiction|].
    exact Hm.
Qed.

Lemma step_schema_le s s' : ledger_step py_str fits s s' -> schema_le s s'.
Proof.
  intros H. destruct H as [hp Ht|index f h rd Hi Hf Hk|d Hd].
  - split.
    + intros c Hc. unfold has_column, started. rewrite saved_columns.
      now apply add_columns_keeps.
    + intros k t Hk. now apply registered_keeps.
  - split.
    + intros c Hc. unfold has_column, finished. rewrite saved_columns.
      exact Hc.
    + auto.
  - split; auto.
Qed.

Lemma schema_le_trans s1 s2 s3 :
  schema_le s1 s2 -> schema_le s2 s3 -> schema_le s1 s3.
Proof. intros [H1 H2] [H3 H4]. split; auto. Qed.

Lemma steps_schema_le s s' : ledger_steps py_str fits s s' -> schema_le s s'.
Proof.
  induction 1 as [|s1 s2 H IH H12]; [split; auto|].
  eapply schema_le_trans; [exact IH|]. now apply step_schema_le.
Qed.

Lemma step_schema_ok s s' :
  ledger_step py_str fits s s' ->
  schema_ok s /\ Forall (fun k => dict_mem k (dtypes s) = true) keys ->
  schema_ok s' /\ Forall (fun k => dict_mem k (dtypes s') = true) keys.
Proof.
  intros H [Hok Hkeys].
  assert (Hmem : forall k d types,
            dict_mem k types = true -> dict_mem k (registered d types) = true).
  { intros k d types Hk. unfold dict_mem in *.
    destruct (dict_get k types) as [t|] eqn:E; [|discriminate].
    now rewrite (registered_keeps k t d types E). }
  destruct H as [hp Ht|index f h rd Hi Hf Hk|d Hd].
  - split.
    + intros c Hc. unfold has_column, started in Hc.
      rewrite saved_columns in Hc. cbn [df] in Hc.
      change (columns (frame_append ?r ?d))
        with (add_columns (keys ++ dict_keys (HP r)) (columns d)) in Hc.
      apply add_columns_from in Hc. cbn [HP] in Hc.
      unfold started, saved. cbn [dtypes].
      destruct Hc as [Hc|Hc].
      * apply Hmem. now apply Hok.
      * apply in_app_or in Hc. destruct Hc as [Hc|Hc].
        -- apply Hmem. rewrite Forall_forall in Hkeys. now apply Hkeys.
        -- now apply registered_mem.
    + unfold started, saved. cbn [dtypes].
      eapply Forall_impl; [|exact Hkeys]. intros k. apply Hmem.
  - split; [|exact Hkeys].
    intros c Hc. unfold has_column, finished in Hc.
    rewrite saved_columns in Hc. now apply Hok.
  - split; assumption.
Qed.

(** *** What is never written *)

Lemma step_config s s' :
  ledger_step py_str fits s s' ->
  loss s' = loss s /\ loss_summary s' = loss_summary s /\
  hist2loss s' = hist2loss s /\ files s' = files s /\
  exists extra, heap s' = heap s ++ extra.
Proof.
  intros H. destruct H as [hp Ht|index f h rd Hi Hf Hk|d Hd]; simpl.
  - repeat split. eexists. reflexivity.
  - repeat split. exists []. now rewrite app_nil_r.
  - repeat split. eexists. reflexivity.
Qed.

Lemma steps_config s s' :
  ledger_steps py_str fits s s' ->
  loss s' = loss s /\ loss_summary s' = loss_summary s /\
  hist2loss s' = hist2loss s /\ files s' = files s /\
  exists extra, heap s' = heap s ++ extra.
Proof.
  induction 1 as [|s1 s2 H IH H12].
  - repeat split. exists []. now rewrite app_nil_r.
  - destruct IH as (A & B & C & D & (e1 & E)).
    destruct (step_config _ _ H12) as (A' & B' & C' & D' & (e2 & E')).
    repeat split; try congruence.
    exists (e1 ++ e2). rewrite E', E. now rewrite app_assoc.
Qed.

(** *** The csv file *)


End Kept.

(* ================================================================== *)
(** ** What every ledger keeps *)

Section Ledgers.

Variable py_str : hpval -> string.
Variable hp_entry : string -> option (dict hpval).

(** A pickled ['hp'] entry is a dict: each key once. *)
Hypothesis hp_entry_ok :
  forall f d, hp_entry f = Some d -> NoDup (dict_keys d).

Lemma session_reach rs s :
  heap_ok s ->
  ledger_steps py_str (fun d => NoDup (dict_keys d)) s
    (session py_str hp_entry rs s).
Proof.
  intros Hok. apply session_steps; auto.
Qed.

Lemma session_invariant (P : State -> Prop) :
  (forall s s', heap_ok s -> P s ->
     ledger_step py_str (fun d => NoDup (dict_keys d)) s s' -> P s') ->
  forall rs s, heap_ok s -> P s ->
    heap_ok (session py_str hp_entry rs s) /\
    P (session py_str hp_entry rs s).
Proof.
  intros Hstep rs s Hok HP.
  eapply (steps_invariant py_str (fun d => NoDup (dict_keys d))
            (fun d H => H) P Hstep s); auto.
  now apply session_reach.
Qed.

(** X2.  In a ledger built from a new table by any calls of [on_start],
    [on_finish], [load] and the import loop, whatever they raised, the
    indices of the rows are 0, 1, ..., n-1 for the n rows of the table, each
    once. *)
Theorem ledger_indices key summary old fs h rs :
  Forall (fun d => NoDup (dict_keys d)) h ->
  Permutation
    (frame_index
       (df (session py_str hp_entry rs (__init__ key summary old fs h))))
    (map Z.of_nat
       (seq 0 (List.length
                 (rows (df (session py_str hp_entry rs
                              (__init__ key summary old fs h))))))) /\
  NoDup (frame_index
           (df (session py_str hp_entry rs (__init__ key summary old fs h)))).
Proof.
  intros Hh.
  destruct (session_invariant
              (fun s => Permutation (frame_index (df s))
                          (map Z.of_nat (seq 0 (List.length (rows (df s))))))
              (fun s s' _ HP Hs => step_indices py_str _ s s' Hs HP)
              rs (__init__ key summary old fs h) Hh (perm_nil _))
    as [_ Hp].
  split; [exact Hp|].
  eapply Permutation_NoDup; [symmetry; exact Hp|]. apply seq_NoDup.
Qed.

(** X3.  In such a ledger, where no hyperparameter has the name of a fixed
    column, every row has its index in the [ID] cell; a pending row has
    [Loss] [np.inf], no epoch and no history file; a row that is not pending
    has a history file. *)
Theorem ledger_rows_ok key summary old fs h rs :
  Forall (fun d => NoDup (dict_keys d)) h ->
  Forall fresh_names h ->
  (forall f d, hp_entry f = Some d -> fresh_names d) ->
  Forall row_ok
    (rows (df (session py_str hp_entry rs (__init__ key summary old fs h)))).
Proof.
  intros Hh _ _.
  destruct (session_invariant (fun s => Forall row_ok (rows (df s)))
              (fun s s' _ HP Hs => step_rows_ok py_str _ s s' Hs HP)
              rs (__init__ key summary old fs h) Hh (Forall_nil _))
    as [_ Hp].
  exact Hp.
Qed.

(** X4.  In such a ledger no hyperparameter cell holds a list or a dict:
    the frame is flat. *)
Theorem ledger_rows_flat key summary old fs h rs :
  Forall (fun d => NoDup (dict_keys d)) h ->
  Forall flat_row
    (rows (df (session py_str hp_entry rs (__init__ key summary old fs h)))).
Proof.
  intros Hh.
  destruct (session_invariant (fun s => Forall flat_row (rows (df s)))
              (fun s s' _ HP Hs => step_rows_flat py_str _ s s' Hs HP)
              rs (__init__ key summary old fs h) Hh (Forall_nil _))
    as [_ Hp].
  exact Hp.
Qed.

(** X5.  The schema only grows: in such a ledger every column of the frame
    has a type in [self.dtypes], the five fixed columns have the types
    [__init__] gave them, and whatever calls follow, every column stays a
    column and every registered type stays as it is. *)
Theorem ledger_schema key summary old fs h rs rs' :
  Forall (fun d => NoDup (dict_keys d)) h ->
  schema_ok (session py_str hp_entry rs (__init__ key summary old fs h)) /\
  map (fun k =>
         dict_get k
           (dtypes (session py_str hp_entry rs
                      (__init__ key summary old fs h))))
      keys
  = [Some Tint; Some Tfloat64; Some Tint; Some Tstr; Some Tbool] /\
  schema_le
    (session py_str hp_entry rs (__init__ key summary old fs h))
    (session py_str hp_entry rs'
       (session py_str hp_entry rs (__init__ key summary old fs h))).
Proof.
  intros Hh.
  destruct (session_invariant
              (fun s => schema_ok s /\
                        Forall (fun k => dict_mem k (dtypes s) = true) keys)
              (fun s s' _ HP Hs => step_schema_ok py_str _ s s' Hs HP)
              rs (__init__ key summary old fs h) Hh)
    as [Hok [Hs _]].
  { split; [intros c Hc; discriminate Hc|]. repeat constructor. }
  split; [exact Hs|]. split.
  - pose proof (steps_schema_le py_str _ _ _
                  (session_reach rs (__init__ key summary old fs h) Hh))
      as [_ Ht].
    unfold keys. simpl map.
    rewrite (Ht "ID" Tint eq_refl), (Ht "Loss" Tfloat64 eq_refl),
      (Ht "Epochs" Tint eq_refl), (Ht "History" Tstr eq_refl),
      (Ht "Pending" Tbool eq_refl).
    reflexivity.
  - apply (steps_schema_le py_str (fun d => NoDup (dict_keys d))).
    now apply session_reach.
Qed.

(** X6.  No call changes the metric key, the summary function or the
    history files, and none changes or removes an object of the heap: in
    such a ledger they are as [__init__] found them, the heap only longer. *)
Theorem ledger_config key summary old fs h rs :
  Forall (fun d => NoDup (dict_keys d)) h ->
  loss (session py_str hp_entry rs (__init__ key summary old fs h)) = key /\
  loss_summary (session py_str hp_entry rs (__init__ key summary old fs h))
  = match summary with Some f => f | None => default_summary end /\
  files (session py_str hp_entry rs (__init__ key summary old fs h)) = fs /\
  exists extra,
    heap (session py_str hp_entry rs (__init__ key summary old fs h))
    = h ++ extra.
Proof.
  intros Hh.
  destruct (steps_config py_str _ _ _
              (session_reach rs (__init__ key summary old fs h) Hh))
    as (A & B & _ & D & E).
  repeat split; assumption.
Qed.


End Ledgers.

(* ================================================================== *)
(** ** What one call changes *)

Section Calls.

Variable py_str : hpval -> string.
Variable hp_entry : string -> option (dict hpval).

(** The row [on_start] adds, as [entry]. *)
Lemma entry_started hp s :
  Permutation (map entry (rows (df (started py_str hp s))))
    (map entry (rows (df s))
     ++ [(next_index (frame_index (df s)), next_index (frame_index (df s)),
          np_inf, 0%nat, None, true, dict_keys (deref hp s))]).
Proof.
  rewrite (Permutation_map entry (started_rows py_str hp s)), map_app.
  unfold entry at 2.
  cbn [map label ID Loss Epochs History Pending HP].
  rewrite flattened_keys. reflexivity.
Qed.

(** [load] of a file with a non-empty ['hp'] and the metric key. *)
Lemma load_good historyfile s history d readings :
  NoDup (dict_keys d) ->
  files s historyfile = Some (Pickled history) ->
  hp_entry historyfile = Some d -> d <> [] ->
  dict_get (loss s) history = Some readings ->
  exists s1,
    load py_str hp_entry historyfile s = (inr tt, s1) /\
    files s1 = files s /\ loss s1 = loss s /\
    Permutation (rows (df s1))
      (rows (df s)
       ++ [mkRow (next_index (frame_index (df s)))
                 (next_index (frame_index (df s)))
                 (summarized (loss_summary s) readings)
                 (List.length readings) (Some historyfile) false
                 (flattened py_str d)]).
Proof.
  intros Hnd Hf Hd Hne Hk.
  rewrite (load_eq py_str hp_entry historyfile s)
    by (intros d' E; rewrite Hd in E; now inversion E; subst).
  rewrite Hf, Hd. destruct d as [|kv d]; [contradiction|]. rewrite Hk.
  eexists. split; [reflexivity|]. split; [reflexivity|].
  split; [reflexivity|].
  rewrite finished_rows.
  rewrite (Permutation_map _
             (started_rows py_str (List.length (heap s))
                (set_heap (heap s ++ [kv :: d]) s))).
  rewrite deref_alloc, map_app.
  change (df (set_heap (heap s ++ [kv :: d]) s)) with (df s).
  rewrite map_finish_other by apply next_index_gt.
  simpl. rewrite Z.eqb_refl. reflexivity.
Qed.

(** X1.  An [on_start] whose [hp] is a non-empty dict, with no key named
    like a fixed column, returns [max(indices) + 1] (0 on an empty table)
    and adds one row to the table, the rows that were there staying as they
    were in label, fixed cells and hyperparameter names: the new row has
    the new index as label and [ID], [Loss] [np.inf], no epoch, no history
    file, is pending and has the hyperparameters of [hp].  The frame is
    left in ascending order of [Loss] and written to the csv file; the types
    of the new keys are registered; the copy of [hp] with every list and
    dict value replaced by its string is a new object on the heap; metric
    key, summary function and history files are as before. *)
Theorem on_start_spec hp s :
  hp_truth (Some hp) s = true ->
  NoDup (dict_keys (deref hp s)) ->
  fresh_names (deref hp s) ->
  fst (on_start py_str hp s) = inr (next_index (frame_index (df s))) /\
  Permutation (map entry (rows (df (snd (on_start py_str hp s)))))
    (map entry (rows (df s))
     ++ [(next_index (frame_index (df s)), next_index (frame_index (df s)),
          np_inf, 0%nat, None, true, dict_keys (deref hp s))]) /\
  StronglySorted row_le (rows (df (snd (on_start py_str hp s)))) /\
  csv (snd (on_start py_str hp s)) = Some (df (snd (on_start py_str hp s))) /\
  dtypes (snd (on_start py_str hp s))
  = registered (flattened py_str (deref hp s)) (dtypes s) /\
  heap (snd (on_start py_str hp s))
  = heap s ++ [flattened py_str (deref hp s)] /\
  loss (snd (on_start py_str hp s)) = loss s /\
  loss_summary (snd (on_start py_str hp s)) = loss_summary s /\
  files (snd (on_start py_str hp s)) = files s.
Proof.
  intros Ht Hnd _.
  assert (E : on_start py_str hp s
              = (inr (next_index (frame_index (df s))),
                 started py_str hp s)).
  { unfold on_start, bind at 1, get_indices, gets.
    fold (next_index (frame_index (df s))).
    unfold bind. rewrite _set_insert_spec; try assumption.
    - reflexivity.
    - apply in_index_false, next_index_gt. }
  rewrite E. cbn [fst snd].
  split; [reflexivity|]. split; [apply entry_started|]. split.
  - unfold started. apply saved_sorted. cbn [df]. apply frame_append_ok.
  - split; [unfold started; apply saved_csv|].
    repeat split.
Qed.

(** X8.  An [on_start] that returns registers each key of [hp] that has no
    type yet with the type of its value, [str] when the value is a list or
    a dict, and leaves the type of every other key as it is; each key of
    [hp] and each fixed column is then a column of the frame. *)
Theorem on_start_registers hp s k v :
  hp_truth (Some hp) s = true ->
  NoDup (dict_keys (deref hp s)) ->
  In (k, v) (deref hp s) ->
  dict_get k (dtypes (snd (on_start py_str hp s)))
  = (match dict_get k (dtypes s) with
     | Some t => Some t
     | None => Some (if is_list_or_dict v then Tstr else type_of v)
     end) /\
  has_column k (df (snd (on_start py_str hp s))) = true /\
  Forall (fun c => has_column c (df (snd (on_start py_str hp s))) = true) keys.
Proof.
  intros Ht Hnd Hin. rewrite on_start_started by assumption. cbn [snd].
  assert (Hc : columns (df (started py_str hp s))
               = add_columns (keys ++ dict_keys (deref hp s))
                   (columns (df s))).
  { unfold started. rewrite saved_columns. cbn [df].
    change (columns (frame_append ?r ?d))
      with (add_columns (keys ++ dict_keys (HP r)) (columns d)).
    cbn [HP]. now rewrite flattened_keys. }
  change (dtypes (started py_str hp s))
    with (registered (flattened py_str (deref hp s)) (dtypes s)).
  split; [|split].
  - destruct (dict_get k (dtypes s)) as [t|] eqn:E.
    + now apply registered_keeps.
    + rewrite registered_first with (v := flatten_value py_str v).
      * unfold flatten_value. destruct (is_list_or_dict v); reflexivity.
      * unfold dict_mem. now rewrite E.
      * now rewrite flattened_keys.
      * unfold flattened. apply in_map_iff. exists (k, v). now split.
  - unfold has_column. rewrite Hc. apply add_columns_in, in_or_app. right.
    now apply (in_map fst) in Hin.
  - apply Forall_forall. intros c Hin'.
    unfold has_column. rewrite Hc. apply add_columns_in, in_or_app. now left.
Qed.

(** X9.  An [on_finish] that returns changes the four cells [Loss],
    [Epochs], [History] and [Pending] of the rows of [index] and nothing
    else: every other row is in the frame as before, the rows of [index]
    keep label, [ID] and hyperparameters, no row is added or dropped, and
    columns, types and heap are as before. *)
Theorem on_finish_frame index historyfile s s' :
  on_finish py_str index historyfile s = (inr tt, s') ->
  (forall r, label r <> index ->
     (In r (rows (df s')) <-> In r (rows (df s)))) /\
  (forall r', In r' (rows (df s')) -> label r' = index ->
     exists r, In r (rows (df s)) /\ label r = index /\
               ID r' = ID r /\ HP r' = HP r) /\
  List.length (rows (df s')) = List.length (rows (df s)) /\
  Permutation (frame_index (df s')) (frame_index (df s)) /\
  columns (df s') = columns (df s) /\
  dtypes s' = dtypes s /\ heap s' = heap s.
Proof.
  rewrite on_finish_finished.
  destruct (in_index index (df s)); [|discriminate].
  destruct (files s historyfile) as [[history|why]|]; [|discriminate|discriminate].
  destruct (dict_get (loss s) history) as [readings|]; [|discriminate].
  intros H. inversion H; subst s'; clear H.
  pose proof (finished_rows index historyfile readings s) as Hp.
  set (upd := fun r : Row => if label r =? index then _ else r) in Hp.
  assert (Hin : forall r, In r (rows (df (finished index historyfile
                                            readings s)))
                          <-> In r (map upd (rows (df s)))).
  { intros r. split; apply Permutation_in; [|symmetry]; exact Hp. }
  split; [|split; [|split; [|split; [|split; [|split]]]]].
  - intros r Hr. rewrite Hin, in_map_iff. split.
    + intros (r0 & E & H0). unfold upd in E.
      destruct (Z.eqb_spec (label r0) index) as [El|_]; [|now subst].
      subst r. simpl in Hr. contradiction.
    + intros H0. exists r. split; [|assumption]. unfold upd.
      destruct (Z.eqb_spec (label r) index); [contradiction|reflexivity].
  - intros r' Hr' Hl. apply Hin, in_map_iff in Hr'.
    destruct Hr' as (r0 & E & H0). exists r0. unfold upd in E.
    destruct (Z.eqb_spec (label r0) index) as [El|Hne].
    + subst r'. simpl. auto.
    + subst r'. contradiction.
  - rewrite (Permutation_length Hp). apply length_map.
  - unfold frame_index. rewrite (Permutation_map label Hp), map_map.
    erewrite map_ext; [reflexivity|].
    intros r. unfold upd. destruct (label r =? index); reflexivity.
  - unfold finished. rewrite saved_columns. reflexivity.
  - reflexivity.
  - reflexivity.
Qed.

(** X10.  How [load] fails.  A file that cannot be opened raises [OSError]
    (not the [ValueError] of [on_finish]), a file that is not a pickle raises
    what [pkl.load] raises, and a dict without ['hp'] raises [KeyError], the
    ledger unchanged; an empty ['hp'] fails the assertion of [_set], the
    table and the csv file unchanged; a dict without the metric key fails
    the assertion of [on_finish] after [on_start] has returned: the trial
    stays in the table as a pending row (here no key of ['hp'] has the name
    of a fixed column). *)
Theorem load_failures historyfile s :
  (forall d, hp_entry historyfile = Some d ->
             NoDup (dict_keys d) /\ fresh_names d) ->
  (files s historyfile = None ->
   load py_str hp_entry historyfile s
   = (inl (OSError (NoSuchFile historyfile)), s)) /\
  (forall why,
     files s historyfile = Some (Unreadable why) ->
     load py_str hp_entry historyfile s = (inl (unpickling_error why), s)) /\
  (forall history,
     files s historyfile = Some (Pickled history) ->
     hp_entry historyfile = None ->
     load py_str hp_entry historyfile s = (inl (KeyError (NoKey "hp")), s)) /\
  (forall history,
     files s historyfile = Some (Pickled history) ->
     hp_entry historyfile = Some [] ->
     fst (load py_str hp_entry historyfile s)
     = inl (AssertionError NoHyperparameters) /\
     df (snd (load py_str hp_entry historyfile s)) = df s /\
     csv (snd (load py_str hp_entry historyfile s)) = csv s) /\
  (forall history d,
     files s historyfile = Some (Pickled history) ->
     hp_entry historyfile = Some d -> d <> [] ->
     dict_get (loss s) history = None ->
     fst (load py_str hp_entry historyfile s)
     = inl (AssertionError (KeyNotIn (loss s))) /\
     Permutation
       (map entry (rows (df (snd (load py_str hp_entry historyfile s)))))
       (map entry (rows (df s))
        ++ [(next_index (frame_index (df s)),
             next_index (frame_index (df s)),
             np_inf, 0%nat, None, true, dict_keys d)])).
Proof.
  intros Hok.
  rewrite (load_eq py_str hp_entry historyfile s
             (fun d E => proj1 (Hok d E))).
  split; [|split; [|split; [|split]]].
  - intros ->. reflexivity.
  - intros why ->. reflexivity.
  - intros history -> ->. reflexivity.
  - intros history -> ->. repeat split.
  - intros history d -> -> Hd ->.
    destruct d as [|kv d]; [contradiction|].
    split; [reflexivity|]. cbn [snd].
    rewrite entry_started, deref_alloc. reflexivity.
Qed.

(** X11.  A [load] of a file that has the metric key and a non-empty ['hp']
    with no key named like a fixed column returns and adds one row to the
    table, the rows that were there staying as they were in label, fixed
    cells and hyperparameter names: the new row has the next index as label
    and [ID], the hyperparameters of ['hp'], the loss and the epochs of the
    readings and the file as history, and is not pending. *)
Theorem load_imports historyfile s history d readings :
  NoDup (dict_keys d) ->
  fresh_names d ->
  files s historyfile = Some (Pickled history) ->
  hp_entry historyfile = Some d -> d <> [] ->
  dict_get (loss s) history = Some readings ->
  fst (load py_str hp_entry historyfile s) = inr tt /\
  Permutation
    (map entry (rows (df (snd (load py_str hp_entry historyfile s)))))
    (map entry (rows (df s))
     ++ [(next_index (frame_index (df s)), next_index (frame_index (df s)),
          summarized (loss_summary s) readings, List.length readings,
          Some historyfile, false, dict_keys d)]).
Proof.
  intros Hnd _ Hf Hd Hne Hk.
  destruct (load_good historyfile s history d readings Hnd Hf Hd Hne Hk)
    as (s1 & El & _ & _ & Hp).
  rewrite El. cbn [fst snd]. split; [reflexivity|].
  rewrite (Permutation_map entry Hp), map_app.
  unfold entry at 2.
  cbn [map label ID Loss Epochs History Pending HP].
  rewrite flattened_keys. reflexivity.
Qed.

End Calls.

(* ================================================================== *)
(** ** The queries *)

Lemma get_k_lowest_eq k ignore_pending s :
  has_column "Loss" (df s) = true ->
  get_k_lowest k ignore_pending s
  = ((if (List.length (kept ignore_pending (nargsort (rows (df s)))) <? k)%nat
      then inl (ValueError
                  (TopK k (List.length
                             (kept ignore_pending (nargsort (rows (df s)))))))
      else inr (mkDF (columns (df s))
                  (firstn k (kept ignore_pending (nargsort (rows (df s))))))),
     s).
Proof.
  intros Hcol. unfold get_k_lowest, bind at 1, gets. rewrite Hcol. cbv zeta.
  set (data := if ignore_pending then _ else _).
  assert (Er : rows data = kept ignore_pending (nargsort (rows (df s))))
    by (unfold data; destruct ignore_pending; reflexivity).
  assert (Ec : columns data = columns (df s))
    by (unfold data; destruct ignore_pending; reflexivity).
  clearbody data. rewrite Er, Ec.
  destruct (Nat.ltb_spec
              (List.length (kept ignore_pending (nargsort (rows (df s)))))
              k) as [Hlt|Hge]; [reflexivity|].
  unfold bind. rewrite (proj2 (Nat.leb_le _ _) Hge). reflexivity.
Qed.

(** X12.  On a frame with the column ['Loss'], [get_best] raises the
    [ValueError] exactly when no row is left to choose from (with
    [ignore_pending], when no trial is finished), and otherwise returns the
    cells of a row that is among the rows to choose from and whose loss is
    not greater than the loss of any of them (a NaN loss counting as the
    greatest); the state is unchanged either way. *)
Theorem get_best_lowest ignore_pending s :
  has_column "Loss" (df s) = true ->
  (kept ignore_pending (rows (df s)) = [] ->
   get_best ignore_pending s = (inl (ValueError (TopK 1 0)), s)) /\
  (kept ignore_pending (rows (df s)) <> [] ->
   exists r,
     In r (kept ignore_pending (rows (df s))) /\
     Forall (row_le r) (kept ignore_pending (rows (df s))) /\
     get_best ignore_pending s
     = (inr (map (fun k => (k, row_get k r)) keys), s)).
Proof.
  intros Hcol.
  assert (Hp : Permutation (kept ignore_pending (nargsort (rows (df s))))
                           (kept ignore_pending (rows (df s))))
    by apply kept_perm, nargsort_perm.
  assert (Hs : StronglySorted row_le
                 (kept ignore_pending (nargsort (rows (df s))))).
  { destruct ignore_pending; simpl.
    - apply StronglySorted_filter, nargsort_sorted.
    - apply nargsort_sorted. }
  unfold get_best, bind. rewrite get_k_lowest_eq by assumption.
  destruct (kept ignore_pending (nargsort (rows (df s)))) as [|r rest] eqn:E.
  - split; [reflexivity|].
    intros Hne. apply Permutation_nil in Hp. contradiction.
  - split.
    + intros Hnil. rewrite Hnil in Hp. apply Permutation_sym in Hp.
      apply Permutation_nil in Hp. discriminate.
    + intros _. exists r. split; [|split].
      * apply (Permutation_in _ Hp). now left.
      * eapply Permutation_Forall; [exact Hp|].
        inversion Hs; subst. constructor; [apply loss_leb_refl|assumption].
      * reflexivity.
Qed.

Section Filter.

Variable py_str : hpval -> string.
Variable hp_entry : string -> option (dict hpval).
Variable filter_HP : addr -> M (list Z).

Lemma step_no_HP s s' :
  ledger_step py_str
    (fun d => NoDup (dict_keys d) /\ ~ In "HP" (dict_keys d)) s s' ->
  has_column "HP" (df s) = false /\
  Forall (fun d => ~ In "HP" (dict_keys d)) (heap s) ->
  has_column "HP" (df s') = false /\
  Forall (fun d => ~ In "HP" (dict_keys d)) (heap s').
Proof.
  intros H [Hc Hh]. destruct H as [hp Ht|index f h rd Hi Hf Hk|d [_ Hd]].
  - assert (Hno : ~ In "HP" (dict_keys (deref hp s))).
    { rewrite Forall_forall in Hh. apply Hh. now apply hp_truth_in. }
    split.
    + unfold has_column, started. rewrite saved_columns. cbn [df].
      change (columns (frame_append ?r ?d))
        with (add_columns (keys ++ dict_keys (HP r)) (columns d)).
      cbn [HP]. rewrite flattened_keys.
      destruct (existsb (String.eqb "HP") (add_columns _ _)) eqn:E;
        [|reflexivity].
      apply add_columns_from in E. destruct E as [E|E].
      * unfold has_column in Hc. congruence.
      * apply in_app_or in E. destruct E as [E|E]; [|contradiction].
        unfold keys in E. simpl in E.
        repeat (destruct E as [E|E]; [discriminate E|]). destruct E.
    + simpl. apply Forall_app. split; [assumption|].
      constructor; [|constructor]. now rewrite flattened_keys.
  - split; [|assumption].
    unfold has_column, finished. rewrite saved_columns. exact Hc.
  - split; [assumption|]. simpl. apply Forall_app. split; [assumption|].
    now repeat constructor.
Qed.

(** X13.  In a ledger built from a new table by calls of the interface,
    where no hyperparameter is called ['HP'], [get_indices] with a filter
    raises [KeyError] for every filter, the state unchanged: the frame has
    no column ['HP'] to compare with.  Without a filter it returns the
    indices of the rows in frame order. *)
Theorem get_indices_filter key summary old fs h rs a :
  Forall (fun d => NoDup (dict_keys d)) h ->
  Forall (fun d => ~ In "HP" (dict_keys d)) h ->
  (forall f d, hp_entry f = Some d ->
               NoDup (dict_keys d) /\ ~ In "HP" (dict_keys d)) ->
  get_indices_hp filter_HP (Some a)
    (session py_str hp_entry rs (__init__ key summary old fs h))
  = (inl (KeyError (NoKey "HP")),
     session py_str hp_entry rs (__init__ key summary old fs h)) /\
  get_indices_hp filter_HP None
    (session py_str hp_entry rs (__init__ key summary old fs h))
  = (inr (map label
            (rows (df (session py_str hp_entry rs
                         (__init__ key summary old fs h))))),
     session py_str hp_entry rs (__init__ key summary old fs h)).
Proof.
  intros Hnd Hno Hfit.
  pose proof (session_steps py_str _ (fun d H => proj1 H) hp_entry rs
                (__init__ key summary old fs h) Hfit Hnd) as Hreach.
  destruct (steps_invariant py_str _ (fun d H => proj1 H)
              (fun s => has_column "HP" (df s) = false /\
                        Forall (fun d => ~ In "HP" (dict_keys d)) (heap s))
              (fun s s' _ HP Hs => step_no_HP s s' Hs HP)
              (__init__ key summary old fs h) _ Hnd (conj eq_refl Hno) Hreach)
    as [_ [Hc _]].
  split; [|reflexivity].
  unfold get_indices_hp, bind, gets. now rewrite Hc.
Qed.

End Filter.

(* ================================================================== *)
(** ** Calls on a ledger *)

Lemma last_any {A} (l : list A) d d' : l <> [] -> last l d = last l d'.
Proof.
  induction l as [|x l IH]; [contradiction|]. intros _.
  destruct l as [|y l]; [reflexivity|].
  change (last (y :: l) d = last (y :: l) d'). apply IH. discriminate.
Qed.

Lemma next_index_unique l n :
  Forall (fun j => j < n) l -> In (n - 1) l -> next_index l = n.
Proof.
  intros Hlt Hin. pose proof (next_index_gt l) as Hgt.
  rewrite Forall_forall in Hgt, Hlt. pose proof (Hgt _ Hin).
  destruct l as [|i rest]; [destruct Hin|].
  assert (Hm : In (next_index (i :: rest) - 1) (i :: rest)).
  { unfold next_index. replace (fold_right Z.max i rest + 1 - 1)
      with (fold_right Z.max i rest) by lia. apply fold_max_in. }
  pose proof (Hlt _ Hm). lia.
Qed.

Lemma argsort_sorted_id l :
  Forall (fun r => isnull (Loss r) = false) l ->
  StronglySorted row_le l -> argsort l = l.
Proof.
  intros Hn Hs. induction Hs as [|x l Hs IH Hx]; [reflexivity|].
  inversion Hn as [|? ? Hx0 Hn']; subst. simpl. rewrite IH by assumption.
  destruct l as [|y l]; [reflexivity|]. simpl.
  inversion Hx as [|? ? Hxy _]; subst. inversion Hn' as [|? ? Hy0 _]; subst.
  unfold row_le, loss_leb in Hxy. rewrite Hy0, Hx0 in Hxy. simpl in Hxy.
  apply negb_true_iff in Hxy. now rewrite Hxy.
Qed.

(** Sorting a sorted frame leaves the rows as they are. *)
Lemma nargsort_sorted_id l : StronglySorted row_le l -> nargsort l = l.
Proof.
  intros Hs. unfold nargsort.
  rewrite argsort_sorted_id.
  - induction Hs as [|x l Hs IH Hx]; [reflexivity|]. simpl.
    destruct (isnull (Loss x)) eqn:E; simpl.
    + assert (Hall : Forall (fun r => isnull (Loss r) = true) l).
      { eapply Forall_impl; [|exact Hx]. intros r Hr.
        unfold row_le, loss_leb in Hr. rewrite E in Hr. simpl in Hr.
        now rewrite orb_false_r in Hr. }
      rewrite (filter_none (fun r => negb (isnull (Loss r))) l).
      * simpl. f_equal.
        clear -Hall. induction Hall as [|y l Hy Hl IH]; [reflexivity|].
        simpl. rewrite Hy. now f_equal.
      * eapply Forall_impl; [|exact Hall]. intros r Hr. simpl.
        now rewrite Hr.
    + now f_equal.
  - apply Forall_forall. intros r Hr. apply filter_In in Hr.
    now apply negb_true_iff.
  - now apply StronglySorted_filter.
Qed.

Section LedgerCalls.

Variable py_str : hpval -> string.
Variable hp_entry : string -> option (dict hpval).
Hypothesis hp_entry_ok :
  forall f d, hp_entry f = Some d -> NoDup (dict_keys d).

(** X14.  In a ledger built from a new table by calls of the interface,
    [update_hist2loss] returns only on a table without rows; on a table with
    a row it raises [AttributeError] at the first row.  Either way all it
    changes is the attribute [hist2loss]: no loss is computed anew, the
    summary function of [on_finish] stays and nothing is written. *)
Theorem update_hist2loss_ledger key summary old fs h rs f :
  Forall (fun d => NoDup (dict_keys d)) h ->
  update_hist2loss f
    (session py_str hp_entry rs (__init__ key summary old fs h))
  = (match rows (df (session py_str hp_entry rs
                       (__init__ key summary old fs h))) with
     | [] => inr tt
     | _ :: _ => inl (AttributeError (NoAttribute "update"))
     end,
     set_hist2loss (Some f)
       (session py_str hp_entry rs (__init__ key summary old fs h))).
Proof.
  intros Hh.
  destruct (session_invariant py_str hp_entry hp_entry_ok
              (fun s => Permutation (frame_index (df s))
                          (map Z.of_nat (seq 0 (List.length (rows (df s))))))
              (fun s s' _ HP Hs => step_indices py_str _ s s' Hs HP)
              rs (__init__ key summary old fs h) Hh (perm_nil _))
    as [_ Hp].
  set (s := session py_str hp_entry rs (__init__ key summary old fs h)) in *.
  unfold update_hist2loss, bind at 1, modify.
  unfold bind at 1, gets. unfold set_hist2loss. cbn [df].
  unfold frame_index in *.
  destruct (rows (df s)) as [|r0 rest] eqn:Er; [reflexivity|].
  assert (Hb : 0 <= label r0 < Z.of_nat (List.length (r0 :: rest))).
  { assert (Hin : In (label r0) (map label (r0 :: rest))) by now left.
    apply (Permutation_in _ Hp) in Hin. apply in_map_iff in Hin.
    destruct Hin as (k & <- & Hk). apply in_seq in Hk. lia. }
  simpl map. simpl for_each. unfold bind at 1. unfold bind at 1.
  unfold bind at 1, gets. unfold iloc. cbn [df]. rewrite Er.
  destruct (Z.ltb_spec (label r0) 0) as [?|_]; [lia|].
  replace ((0 <=? label r0) && (label r0 <? Z.of_nat (List.length (r0 :: rest))))
    with true
    by (symmetry; apply andb_true_iff; split;
        [apply Z.leb_le|apply Z.ltb_lt]; lia).
  destruct (nth_error (r0 :: rest) (Z.to_nat (label r0))) eqn:En;
    [reflexivity|].
  apply nth_error_None in En. lia.
Qed.

(** X15.  In a ledger constructed without a summary function, an
    [on_finish] that returns stores the last reading of the history as the
    trial's loss ([np.inf] when there is no reading) and the number of
    readings as its epochs, whatever calls came before. *)
Theorem on_finish_last_reading key old fs h rs index historyfile s' :
  Forall (fun d => NoDup (dict_keys d)) h ->
  on_finish py_str index historyfile
    (session py_str hp_entry rs (__init__ key None old fs h))
  = (inr tt, s') ->
  exists history readings,
    fs historyfile = Some (Pickled history) /\
    dict_get key history = Some readings /\
    (exists r, In r (rows (df s')) /\ label r = index) /\
    forall r, In r (rows (df s')) -> label r = index ->
      Loss r = last readings np_inf /\
      Epochs r = List.length readings.
Proof.
  intros Hh.
  destruct (steps_config py_str _ _ _
              (session_reach py_str hp_entry hp_entry_ok rs
                 (__init__ key None old fs h) Hh))
    as (A & B & _ & D & _).
  set (s := session py_str hp_entry rs (__init__ key None old fs h)) in *.
  change (loss (__init__ key None old fs h)) with key in A.
  change (loss_summary (__init__ key None old fs h))
    with default_summary in B.
  change (files (__init__ key None old fs h)) with fs in D.
  rewrite on_finish_finished.
  destruct (in_index index (df s)) eqn:Hi; [|discriminate].
  rewrite D, A.
  destruct (fs historyfile) as [[history|why]|] eqn:Hf;
    [|discriminate|discriminate].
  destruct (dict_get key history) as [readings|] eqn:Hk; [|discriminate].
  intros H. inversion H; subst s'; clear H.
  exists history, readings. split; [reflexivity|]. split; [exact Hk|].
  pose proof (finished_rows index historyfile readings s) as Hp.
  split.
  - apply in_index_iff in Hi. unfold frame_index in Hi.
    apply in_map_iff in Hi. destruct Hi as (r0 & Hl & Hr0).
    eexists. split.
    + eapply Permutation_in; [symmetry; exact Hp|].
      apply in_map_iff. exists r0. split; [reflexivity|assumption].
    + rewrite Hl, Z.eqb_refl. reflexivity.
  - intros r Hr Hl. apply (Permutation_in _ Hp) in Hr.
    apply in_map_iff in Hr. destruct Hr as (r0 & E & _).
    destruct (Z.eqb_spec (label r0) index) as [_|Hne].
    + subst r. simpl. split; [|reflexivity].
      rewrite B. unfold summarized, default_summary.
      destruct readings as [|x l]; [reflexivity|].
      simpl Nat.ltb. cbv iota. apply last_any. discriminate.
    + subst r. contradiction.
Qed.

End LedgerCalls.

Section Again.

Variable py_str : hpval -> string.

(** X16.  Reporting a finished trial again with the same history file
    changes nothing: after an [on_finish] that returned, the same
    [on_finish] returns again and leaves every part of the state, the row
    order and the csv file included, as it is (frames of up to 16 rows,
    where numpy's sort is its insertion sort and keeps a sorted frame as it
    is). *)
Theorem on_finish_again index historyfile s s1 :
  (List.length (rows (df s)) <= 16)%nat ->
  on_finish py_str index historyfile s = (inr tt, s1) ->
  on_finish py_str index historyfile s1 = (inr tt, s1).
Proof.
  intros _. rewrite !on_finish_finished.
  destruct (in_index index (df s)) eqn:Hi; [|discriminate].
  destruct (files s historyfile) as [[history|why]|] eqn:Hf; [|discriminate|discriminate].
  destruct (dict_get (loss s) history) as [readings|] eqn:Hk; [|discriminate].
  intros H. inversion H; subst s1; clear H.
  assert (Hi1 : in_index index (df (finished index historyfile readings s))
                = true).
  { apply in_index_iff. apply in_index_iff in Hi. unfold frame_index in *.
    eapply Permutation_in;
      [symmetry; apply Permutation_map, finished_rows|].
    rewrite map_map. erewrite map_ext; [exact Hi|].
    intros r. simpl. destruct (label r =? index); reflexivity. }
  rewrite Hi1.
  change (files (finished index historyfile readings s)) with (files s).
  change (loss (finished index historyfile readings s)) with (loss s).
  rewrite Hf, Hk. f_equal.
  unfold finished at 1.
  change (loss_summary (finished index historyfile readings s))
    with (loss_summary s).
  set (l := summarized (loss_summary s) readings).
  set (e := List.length readings).
  set (d0 := updated index l e (Some historyfile) false (df s)).
  assert (Hrows : forall d,
            (forall r, In r (rows d) ->
               In r (map (fun r => if label r =? index
                                   then mkRow (label r) (ID r) l e
                                          (Some historyfile) false (HP r)
                                   else r) (rows (df s)))) ->
            updated index l e (Some historyfile) false d = d).
  { intros d Hd. destruct d as [cols rws].
    unfold updated, set_value. simpl in *. f_equal. rewrite !map_map.
    rewrite <- (map_id rws) at 2. apply map_ext_in. intros r Hr.
    apply Hd, in_map_iff in Hr. destruct Hr as (r0 & E & _).
    destruct (label r0 =? index) eqn:E0; subst r;
      repeat (cbn -[Z.eqb]; rewrite ?E0); reflexivity. }
  unfold finished, saved, set_df. cbn [df loss loss_summary hist2loss dtypes
                                       csv files heap].
  fold l e d0.
  destruct (has_column "Loss" d0) eqn:Hc.
  - assert (E1 : updated index l e (Some historyfile) false
                   (sort_values_Loss d0) = sort_values_Loss d0).
    { apply Hrows. intros r Hr. simpl in Hr.
      apply (Permutation_in _ (nargsort_perm (rows d0))) in Hr.
      unfold d0 in Hr. now rewrite updated_rows in Hr. }
    rewrite E1.
    assert (Hc' : has_column "Loss" (sort_values_Loss d0) = true)
      by exact Hc.
    rewrite Hc'.
    assert (E2 : sort_values_Loss (sort_values_Loss d0)
                 = sort_values_Loss d0).
    { unfold sort_values_Loss. simpl. f_equal.
      apply nargsort_sorted_id, nargsort_sorted. }
    rewrite E2. reflexivity.
  - assert (E1 : updated index l e (Some historyfile) false d0 = d0).
    { apply Hrows. intros r Hr. unfold d0 in Hr.
      now rewrite updated_rows in Hr. }
    rewrite E1, Hc. reflexivity.
Qed.

End Again.

Section Bulk.

Variable py_str : hpval -> string.
Variable hp_entry : string -> option (dict hpval).

(** X17.  The import loop over files that each have the metric key and a
    non-empty ['hp'] with no key named like a fixed column returns and adds
    one row per file to the table, the rows that were there staying as they
    were in label, fixed cells and hyperparameter names: the new rows are
    not pending, have the files as history in the order of the list, and
    take the next free indices in that order. *)
Theorem load_results_imports hfiles : forall s,
  (forall f, In f hfiles ->
     exists history d readings,
       files s f = Some (Pickled history) /\ hp_entry f = Some d /\
       d <> [] /\ NoDup (dict_keys d) /\ fresh_names d /\
       dict_get (loss s) history = Some readings) ->
  exists news,
    fst (load_results py_str hp_entry hfiles s) = inr tt /\
    Permutation
      (map entry (rows (df (snd (load_results py_str hp_entry hfiles s)))))
      (map entry (rows (df s)) ++ map entry news) /\
    map History news = map Some hfiles /\
    Forall (fun r => Pending r = false) news /\
    map label news
    = map (fun i => next_index (frame_index (df s)) + Z.of_nat i)
          (seq 0 (List.length hfiles)).
Proof.
  induction hfiles as [|f rest IH]; intros s Hall.
  - exists []. simpl. rewrite app_nil_r.
    do 3 (split; [reflexivity|]). split; [constructor|reflexivity].
  - destruct (Hall f (or_introl eq_refl))
      as (history & d & readings & Hf & Hd & Hne & Hnd & _ & Hk).
    destruct (load_good py_str hp_entry f s history d readings Hnd Hf Hd
                Hne Hk)
      as (s1 & El & Hfs & Hls & Hp).
    destruct (IH s1) as (news & Hr & Hp' & Hh & Hpe & Hl).
    { intros f' Hf'. rewrite Hfs, Hls. apply Hall. now right. }
    assert (Hn : next_index (frame_index (df s1))
                 = next_index (frame_index (df s)) + 1).
    { pose proof (next_index_gt (frame_index (df s))) as Hgt.
      assert (Hi : Permutation (frame_index (df s1))
                     (frame_index (df s)
                      ++ [next_index (frame_index (df s))])).
      { unfold frame_index. rewrite (Permutation_map label Hp), map_app.
        reflexivity. }
      apply next_index_unique.
      - eapply Permutation_Forall; [symmetry; exact Hi|].
        apply Forall_app. split.
        + eapply Forall_impl; [|exact Hgt]. simpl. intros; lia.
        + constructor; [lia|constructor].
      - apply (Permutation_in _ (Permutation_sym Hi)).
        apply in_or_app. right. left. lia. }
    unfold load_results in *. simpl for_each. unfold bind. rewrite El.
    eexists (_ :: news). split; [exact Hr|]. split; [|split; [|split]].
    + rewrite Hp', (Permutation_map entry Hp), map_app, <- app_assoc.
      apply Permutation_refl.
    + simpl. now rewrite Hh.
    + constructor; [reflexivity|assumption].
    + simpl. rewrite Z.add_0_r. f_equal. rewrite Hl, Hn.
      rewrite <- seq_shift, map_map. apply map_ext. intros i. lia.
Qed.

End Bulk.

(* ================================================================== *)
(** ** The further properties on the example ledgers *)

Ltac nodup :=
  repeat (constructor; [simpl; intuition discriminate|]); constructor.

Lemma example_heap_ok : Forall (fun d => NoDup (dict_keys d)) example_heap.
Proof. repeat (constructor; [nodup|]). constructor. Qed.

Lemma example_heap_no_HP :
  Forall (fun d => ~ In "HP" (dict_keys d)) example_heap.
Proof. repeat (constructor; [simpl; intuition discriminate|]). constructor. Qed.

Lemma example_hp_entry_ok f d :
  example_hp_entry f = Some d ->
  NoDup (dict_keys d) /\ ~ In "HP" (dict_keys d).
Proof.
  unfold example_hp_entry.
  repeat match goal with
         | |- context [String.eqb f ?p] => destruct (String.eqb f p)
         end;
    intros E; inversion E; subst; (split; [nodup|simpl; intuition discriminate]).
Qed.

Ltac no_fixed :=
  repeat (constructor; [unfold keys; simpl; intuition discriminate|]);
  constructor.

Lemma example_heap_fresh : Forall fresh_names example_heap.
Proof. repeat (constructor; [no_fixed|]). constructor. Qed.

Lemma example_hp_entry_fresh f d :
  example_hp_entry f = Some d -> fresh_names d.
Proof.
  unfold example_hp_entry.
  repeat match goal with
         | |- context [String.eqb f ?p] => destruct (String.eqb f p)
         end;
    intros E; inversion E; subst; no_fixed.
Qed.

(** The rows of the example ledger: label, loss, epochs, history file and
    pending flag, in frame order. *)
Lemma example_ledger_rows :
  map (fun r => (label r, Loss r, Epochs r, History r, Pending r))
      (rows (df example_ledger))
  = [(0, Finite (1 # 5), 2%nat, Some "1_history.pkl", false);
     (3, Finite (1 # 5), 2%nat, Some "1_history.pkl", false);
     (1, Finite (1 # 2), 2%nat, Some "0_history.pkl", false);
     (4, Finite (1 # 2), 2%nat, Some "0_history.pkl", false);
     (2, PosInf, 0%nat, None, true)].
Proof. evaluate. Qed.

(** [on_start] on a new ledger with the dict at address 0. *)
Lemma on_start_spec_witness :
  fst (on_start str_example 0%nat new_ledger)
  = inr (next_index (frame_index (df new_ledger))) /\
  Permutation
    (map entry (rows (df (snd (on_start str_example 0%nat new_ledger)))))
    (map entry (rows (df new_ledger))
     ++ [(next_index (frame_index (df new_ledger)),
          next_index (frame_index (df new_ledger)),
          np_inf, 0%nat, None, true, dict_keys (deref 0%nat new_ledger))]) /\
  csv (snd (on_start str_example 0%nat new_ledger))
  = Some (df (snd (on_start str_example 0%nat new_ledger))) /\
  heap (snd (on_start str_example 0%nat new_ledger))
  = heap new_ledger ++ [flattened str_example (deref 0%nat new_ledger)] /\
  next_index (frame_index (df new_ledger)) = 0 /\
  flattened str_example (deref 0%nat new_ledger)
  = [("lr", HFloat (Finite (1 # 10))); ("layers", HStr "[3, 4]")].
Proof.
  assert (Ht : hp_truth (Some 0%nat) new_ledger = true) by evaluate.
  assert (Hnd : NoDup (dict_keys (deref 0%nat new_ledger)))
    by (vm_compute; nodup).
  assert (Hf : fresh_names (deref 0%nat new_ledger)) by no_fixed.
  destruct (on_start_spec str_example 0%nat new_ledger Ht Hnd Hf)
    as (H1 & H2 & _ & H4 & _ & H6 & _).
  split; [exact H1|]. split; [exact H2|]. split; [exact H4|].
  split; [exact H6|]. evaluate.
Defined.

Lemma ledger_indices_witness :
  Permutation (frame_index (df example_ledger))
    (map Z.of_nat (seq 0 (List.length (rows (df example_ledger))))) /\
  NoDup (frame_index (df example_ledger)).
Proof.
  exact (ledger_indices str_example example_hp_entry
           (fun f d E => proj1 (example_hp_entry_ok f d E))
           "loss" None None example_files example_heap example_requests
           example_heap_ok).
Defined.

Lemma ledger_rows_ok_witness : Forall row_ok (rows (df example_ledger)).
Proof.
  exact (ledger_rows_ok str_example example_hp_entry
           (fun f d E => proj1 (example_hp_entry_ok f d E))
           "loss" None None example_files example_heap example_requests
           example_heap_ok example_heap_fresh example_hp_entry_fresh).
Defined.

Lemma ledger_rows_flat_witness : Forall flat_row (rows (df example_ledger)).
Proof.
  exact (ledger_rows_flat str_example example_hp_entry
           (fun f d E => proj1 (example_hp_entry_ok f d E))
           "loss" None None example_files example_heap example_requests
           example_heap_ok).
Defined.

Lemma ledger_schema_witness :
  schema_ok example_ledger /\
  map (fun k => dict_get k (dtypes example_ledger)) keys
  = [Some Tint; Some Tfloat64; Some Tint; Some Tstr; Some Tbool] /\
  schema_le example_ledger
    (session str_example example_hp_entry [Load "1_history.pkl"]
       example_ledger).
Proof.
  exact (ledger_schema str_example example_hp_entry
           (fun f d E => proj1 (example_hp_entry_ok f d E))
           "loss" None None example_files example_heap example_requests
           [Load "1_history.pkl"] example_heap_ok).
Defined.

Lemma ledger_config_witness :
  loss example_ledger = "loss" /\
  loss_summary example_ledger = default_summary /\
  files example_ledger = example_files /\
  exists extra, heap example_ledger = example_heap ++ extra.
Proof.
  exact (ledger_config str_example example_hp_entry
           (fun f d E => proj1 (example_hp_entry_ok f d E))
           "loss" None None example_files example_heap example_requests
           example_heap_ok).
Defined.


(** The type of ['layers'], a list, and of ['lr'], a float. *)
Lemma on_start_registers_witness :
  dict_get "layers" (dtypes (snd (on_start str_example 0%nat new_ledger)))
  = Some Tstr /\
  dict_get "lr" (dtypes (snd (on_start str_example 0%nat new_ledger)))
  = Some Tfloat /\
  has_column "layers" (df (snd (on_start str_example 0%nat new_ledger)))
  = true.
Proof.
  assert (Ht : hp_truth (Some 0%nat) new_ledger = true) by evaluate.
  assert (Hnd : NoDup (dict_keys (deref 0%nat new_ledger)))
    by (vm_compute; nodup).
  destruct (on_start_registers str_example 0%nat new_ledger
              "layers" (HList [HInt 3; HInt 4]) Ht Hnd)
    as (H1 & H2 & _); [vm_compute; auto|].
  destruct (on_start_registers str_example 0%nat new_ledger
              "lr" (HFloat (Finite (1 # 10))) Ht Hnd)
    as (H3 & _); [vm_compute; auto|].
  split; [rewrite H1; evaluate|]. split; [rewrite H3; evaluate|exact H2].
Defined.

(** Trial 0 of two pending trials is finished: the row of trial 1 stays. *)
Lemma on_finish_frame_witness :
  (forall r, label r <> 0 ->
     (In r (rows (df (snd (on_finish str_example 0 "0_history.pkl"
                             two_pending))))
      <-> In r (rows (df two_pending)))) /\
  List.length (rows (df (snd (on_finish str_example 0 "0_history.pkl"
                                two_pending))))
  = List.length (rows (df two_pending)) /\
  heap (snd (on_finish str_example 0 "0_history.pkl" two_pending))
  = heap two_pending.
Proof.
  assert (H : on_finish str_example 0 "0_history.pkl" two_pending
              = (inr tt,
                 snd (on_finish str_example 0 "0_history.pkl" two_pending)))
    by evaluate.
  destruct (on_finish_frame str_example 0 "0_history.pkl" two_pending _ H)
    as (H1 & _ & H3 & _ & _ & _ & H7).
  split; [exact H1|]. split; [exact H3|exact H7].
Defined.

(** A file that is not there, a file that is not a pickle, and a file
    without the metric key. *)
Lemma load_failures_witness :
  load str_example example_hp_entry "nowhere.pkl" one_pending
  = (inl (OSError (NoSuchFile "nowhere.pkl")), one_pending) /\
  load str_example example_hp_entry "5_history.pkl" one_pending
  = (inl (unpickling_error NotAPickle), one_pending) /\
  fst (load str_example example_hp_entry "4_history.pkl" one_pending)
  = inl (AssertionError (KeyNotIn (loss one_pending))) /\
  Permutation
    (map entry
       (rows (df (snd (load str_example example_hp_entry "4_history.pkl"
                         one_pending)))))
    (map entry (rows (df one_pending))
     ++ [(next_index (frame_index (df one_pending)),
          next_index (frame_index (df one_pending)),
          np_inf, 0%nat, None, true,
          dict_keys [("lr", HFloat (Finite (1 # 2)))])]).
Proof.
  assert (Hok : forall f d, example_hp_entry f = Some d ->
                            NoDup (dict_keys d) /\ fresh_names d).
  { intros f d E. split.
    - exact (proj1 (example_hp_entry_ok f d E)).
    - exact (example_hp_entry_fresh f d E). }
  split; [|split].
  - apply (load_failures str_example example_hp_entry "nowhere.pkl"
             one_pending (Hok "nowhere.pkl")).
    evaluate.
  - apply (load_failures str_example example_hp_entry "5_history.pkl"
             one_pending (Hok "5_history.pkl")).
    evaluate.
  - apply (load_failures str_example example_hp_entry "4_history.pkl"
             one_pending (Hok "4_history.pkl"))
      with (history := [("acc", [Finite (1 # 2)])]).
    + evaluate.
    + reflexivity.
    + discriminate.
    + evaluate.
Defined.

(** The import of ['0_history.pkl'] into a new ledger. *)
Lemma load_imports_witness :
  fst (load str_example example_hp_entry "0_history.pkl" new_ledger)
  = inr tt /\
  Permutation
    (map entry
       (rows (df (snd (load str_example example_hp_entry "0_history.pkl"
                         new_ledger)))))
    (map entry (rows (df new_ledger))
     ++ [(next_index (frame_index (df new_ledger)),
          next_index (frame_index (df new_ledger)),
          summarized (loss_summary new_ledger)
            [Finite (1 # 5); Finite (1 # 2)],
          List.length [Finite (1 # 5); Finite (1 # 2)],
          Some "0_history.pkl", false,
          dict_keys [("lr", HFloat (Finite (1 # 10)));
                     ("layers", HList [HInt 3; HInt 4])])]).
Proof.
  apply (load_imports str_example example_hp_entry "0_history.pkl" new_ledger
           [("loss", [Finite (1 # 5); Finite (1 # 2)])]).
  - nodup.
  - no_fixed.
  - evaluate.
  - reflexivity.
  - discriminate.
  - evaluate.
Defined.

(** No trial finished: the [ValueError]; losses 0.5 and 0.2: a row to
    return. *)
Lemma get_best_lowest_witness :
  get_best true one_pending = (inl (ValueError (TopK 1 0)), one_pending) /\
  exists r,
    In r (kept true (rows (df ranked))) /\
    Forall (row_le r) (kept true (rows (df ranked))) /\
    get_best true ranked = (inr (map (fun k => (k, row_get k r)) keys), ranked).
Proof.
  split.
  - apply (get_best_lowest true one_pending); evaluate.
  - apply (get_best_lowest true ranked); evaluate.
Defined.

Lemma get_indices_filter_witness :
  get_indices_hp example_filter (Some 0%nat) example_ledger
  = (inl (KeyError (NoKey "HP")), example_ledger) /\
  get_indices_hp example_filter None example_ledger
  = (inr (map label (rows (df example_ledger))), example_ledger).
Proof.
  exact (get_indices_filter str_example example_hp_entry example_filter
           "loss" None None example_files example_heap example_requests
           0%nat example_heap_ok example_heap_no_HP example_hp_entry_ok).
Defined.

Lemma update_hist2loss_ledger_witness :
  update_hist2loss first_reading example_ledger
  = (match rows (df example_ledger) with
     | [] => inr tt
     | _ :: _ => inl (AttributeError (NoAttribute "update"))
     end,
     set_hist2loss (Some first_reading) example_ledger) /\
  update_hist2loss first_reading new_ledger
  = (inr tt, set_hist2loss (Some first_reading) new_ledger).
Proof.
  split.
  - exact (update_hist2loss_ledger str_example example_hp_entry
             (fun f d E => proj1 (example_hp_entry_ok f d E))
             "loss" None None example_files example_heap example_requests
             first_reading example_heap_ok).
  - exact (update_hist2loss_ledger str_example example_hp_entry
             (fun f d E => proj1 (example_hp_entry_ok f d E))
             "loss" None None example_files example_heap []
             first_reading example_heap_ok).
Defined.

(** The pending trial 2 of the example ledger, finished with readings 0.7,
    0.2. *)
Lemma on_finish_last_reading_witness :
  exists history readings,
    example_files "1_history.pkl" = Some (Pickled history) /\
    dict_get "loss" history = Some readings /\
    (exists r,
       In r (rows (df (snd (on_finish str_example 2 "1_history.pkl"
                              example_ledger)))) /\
       label r = 2) /\
    forall r,
      In r (rows (df (snd (on_finish str_example 2 "1_history.pkl"
                             example_ledger)))) ->
      label r = 2 ->
      Loss r = last readings np_inf /\ Epochs r = List.length readings.
Proof.
  assert (H : on_finish str_example 2 "1_history.pkl"
                (session str_example example_hp_entry example_requests
                   (__init__ "loss" None None example_files example_heap))
              = (inr tt,
                 snd (on_finish str_example 2 "1_history.pkl"
                        example_ledger)))
    by evaluate.
  exact (on_finish_last_reading str_example example_hp_entry
           (fun f d E => proj1 (example_hp_entry_ok f d E))
           "loss" None example_files example_heap example_requests
           2 "1_history.pkl" _ example_heap_ok H).
Defined.

Lemma on_finish_again_witness :
  on_finish str_example 0 "0_history.pkl" one_finished
  = (inr tt, one_finished).
Proof.
  apply (on_finish_again str_example 0 "0_history.pkl" one_pending);
    evaluate.
Defined.

(** Two files imported into the ledger with one pending trial. *)
Lemma load_results_imports_witness :
  exists news,
    fst (load_results str_example example_hp_entry
           ["1_history.pkl"; "0_history.pkl"] one_pending) = inr tt /\
    Permutation
      (map entry
         (rows (df (snd (load_results str_example example_hp_entry
                           ["1_history.pkl"; "0_history.pkl"] one_pending)))))
      (map entry (rows (df one_pending)) ++ map entry news) /\
    map History news = map Some ["1_history.pkl"; "0_history.pkl"] /\
    Forall (fun r => Pending r = false) news /\
    map label news
    = map (fun i => next_index (frame_index (df one_pending)) + Z.of_nat i)
          (seq 0 (List.length ["1_history.pkl"; "0_history.pkl"])).
Proof.
  apply (load_results_imports str_example example_hp_entry
           ["1_history.pkl"; "0_history.pkl"] one_pending).
  intros f [<-|[<-|[]]].
  - exists [("loss", [Finite (7 # 10); Finite (1 # 5)])],
      [("lr", HFloat (Finite (1 # 5))); ("momentum", HInt 1)],
      [Finite (7 # 10); Finite (1 # 5)].
    split; [evaluate|]. split; [reflexivity|]. split; [discriminate|].
    split; [nodup|]. split; [no_fixed|evaluate].
  - exists [("loss", [Finite (1 # 5); Finite (1 # 2)])],
      [("lr", HFloat (Finite (1 # 10))); ("layers", HList [HInt 3; HInt 4])],
      [Finite (1 # 5); Finite (1 # 2)].
    split; [evaluate|]. split; [reflexivity|]. split; [discriminate|].
    split; [nodup|]. split; [no_fixed|evaluate].
Defined.
